(** * check_mindmaps.py: the module / mindmap consistency checker

    A shallow embedding of [src/check_mindmaps.py].  The script loads two
    JSON documents, collects the [module_id] values of the mindmaps in a
    set, prints two counts and then either the modules whose 1-based
    position is not in that set or a line saying that all are covered.
    Every exception is caught by one [try]/[except] around the whole body
    and printed as [Error: ...].

    The Python values that [json.load] can return are the type [json];
    the interpreter state is a record holding the file system, standard
    output and the four local variables of the function; the body is a
    program in a state-and-exception monad, one line per source line. *)

From Stdlib Require Import ZArith NArith List String Ascii Bool Lia Sorted Permutation.
From Stdlib Require Import DecimalString DecimalZ DecimalFacts SpecFloat.
Import ListNotations.
Local Open Scope string_scope.
Local Open Scope list_scope.
Local Open Scope Z_scope.
Set Warnings "-register-all".

(* ================================================================= *)
(** ** Python values produced by [json.load] *)

(** A Python [str]: its code points, one number each.  [json.load] gives
    any sequence of code points, lone surrogates included (the escape
    [\ud800] is accepted). *)
Definition text : Type := list N.

(** The text of a literal of the script or of a message of the
    interpreter, which are written in ASCII: one code point for each
    character. *)
Definition txt (s : string) : text := map N_of_ascii (list_ascii_of_string s).

(** [json.load] returns [None], [bool], [int], [float], [str], [list] or
    [dict].  A [dict] is kept as its items in insertion order; its keys
    are strings, each of them once (of a key that a document repeats
    [json.load] keeps one value).  A [float] is an IEEE binary64 value
    ([spec_float]). *)
Inductive json : Type :=
| JNull
| JBool (b : bool)
| JInt (z : Z)
| JFloat (f : spec_float)
| JStr (s : text)
| JArr (items : list json)
| JObj (fields : list (text * json)).

(** Exceptions that the statements of [check_mindmaps] can raise. *)
Inductive exn : Type :=
| LoadError (msg : string)      (* [open] or [json.load] failed; [msg] is [str(e)] *)
| NotIterable (v : json)        (* TypeError: [for _ in v] on None, bool, int, float *)
| NoAttributeGet (v : json)     (* AttributeError: [v.get] on a value that is no dict *)
| Unhashable (v : json)         (* TypeError: [set.add] of a list or a dict *)
| NoLen (v : json)              (* TypeError: [len(v)] on None, bool, int, float *)
| BadSubscript (v : json) (k : string)  (* TypeError: [v[k]] on a value that is no dict *)
| KeyError (k : string)         (* KeyError: [d[k]] with [k] not in the dict [d] *)
| UnicodeEncodeError (t : text) (* [print(t)] with a [t] that standard output cannot encode *)
| UnboundLocal (name : string). (* a local variable read before its assignment *)

(** Outcome of a statement or expression: a value or a raised exception. *)
Inductive result (A : Type) : Type :=
| Ok (a : A)
| Raise (e : exn).
Arguments Ok {A} a.
Arguments Raise {A} e.

(** What [open] followed by [json.load] gives for a path. *)
Inductive load_result : Type :=
| Loaded (v : json)
| Unreadable (msg : string).

(* ================================================================= *)
(** ** Built-in operations used by the script *)

Module Py.

(** [s == t] for two [str]. *)
Fixpoint text_eqb (s t : text) : bool :=
  match s, t with
  | [], [] => true
  | c :: s', d :: t' => N.eqb c d && text_eqb s' t'
  | _, _ => false
  end.

(** [d[k]] / [d.get(k)] on the items of a dict. *)
Fixpoint dict_lookup (k : text) (d : list (text * json)) : option json :=
  match d with
  | [] => None
  | (k', v) :: d' => if text_eqb k k' then Some v else dict_lookup k d'
  end.

(** [v.get(k)] for a key [k] that the script writes as a literal: only a
    dict has the method; a missing key gives [None]. *)
Definition get (v : json) (k : string) : result json :=
  match v with
  | JObj d => match dict_lookup (txt k) d with
              | Some x => Ok x
              | None => Ok JNull
              end
  | _ => Raise (NoAttributeGet v)
  end.

(** [v[k]] for a key [k] that the script writes as a literal. *)
Definition getitem (v : json) (k : string) : result json :=
  match v with
  | JObj d => match dict_lookup (txt k) d with
              | Some x => Ok x
              | None => Raise (KeyError k)
              end
  | _ => Raise (BadSubscript v k)
  end.

(** [x is not None]. *)
Definition is_not_none (v : json) : bool :=
  match v with
  | JNull => false
  | _ => true
  end.

(** The characters of a [str], each as a one-character [str]. *)
Definition chars (s : text) : list json := map (fun c => JStr [c]) s.

(** The items that [for x in v] visits: the elements of a list, the keys
    of a dict, the characters of a str. *)
Definition iter (v : json) : result (list json) :=
  match v with
  | JArr l => Ok l
  | JObj d => Ok (map (fun kv => JStr (fst kv)) d)
  | JStr s => Ok (chars s)
  | _ => Raise (NotIterable v)
  end.

(** [len(v)]: the number of elements, of keys, of characters. *)
Definition len (v : json) : result Z :=
  match v with
  | JArr l => Ok (Z.of_nat (List.length l))
  | JObj d => Ok (Z.of_nat (List.length d))
  | JStr s => Ok (Z.of_nat (List.length s))
  | _ => Raise (NoLen v)
  end.

(** [enumerate(l, start)]. *)
Fixpoint enumerate {A : Type} (l : list A) (start : Z) : list (Z * A) :=
  match l with
  | [] => []
  | x :: l' => (start, x) :: enumerate l' (start + 1)
  end.

(** [str(z)] for an [int]: decimal digits, with a minus sign when negative. *)
Definition str_int (z : Z) : text := txt (NilZero.string_of_int (Z.to_int z)).

(** *** Standard output *)

(** A surrogate code point, U+D800 to U+DFFF. *)
Definition is_surrogate (c : N) : bool :=
  ((55296 <=? c) && (c <=? 57343))%N.

(** Standard output encodes what it is given as UTF-8 and refuses what
    has no encoding (the interpreter's default, [utf-8] with [strict]):
    a text can be written when it holds no surrogate. *)
Definition encodable (t : text) : bool :=
  forallb (fun c => negb (is_surrogate c)) t.

(** *** Equality and sets *)

(** [f == z] for a float and an int: Python compares the exact values. *)
Definition float_eq_int (f : spec_float) (z : Z) : bool :=
  match f with
  | S754_zero _ => z =? 0
  | S754_finite sg m e =>
      let v := if sg then Z.neg m else Z.pos m in
      if 0 <=? e then v * 2 ^ e =? z else v =? z * 2 ^ (- e)
  | S754_infinity _ | S754_nan => false
  end.

Definition is_nan (f : spec_float) : bool :=
  match f with
  | S754_nan => true
  | _ => false
  end.

(** The test a set applies between a stored element [a] and a probed value
    [b]: the same object, or [a == b].  [True == 1] and [1.0 == 1] hold, a
    str equals only the same str.  The one float that differs from itself
    under [==] is NaN, and [json] hands out one NaN object for every NaN
    it reads, so two NaNs from a document are the same object. *)
Definition set_eq (a b : json) : bool :=
  match a, b with
  | JNull, JNull => true
  | JStr s, JStr t => text_eqb s t
  | JBool x, JBool y => Bool.eqb x y
  | JBool x, JInt z | JInt z, JBool x => Z.b2z x =? z
  | JInt x, JInt y => x =? y
  | JBool x, JFloat f | JFloat f, JBool x => float_eq_int f (Z.b2z x)
  | JInt z, JFloat f | JFloat f, JInt z => float_eq_int f z
  | JFloat f, JFloat g => SFeqb f g || (is_nan f && is_nan g)
  | _, _ => false
  end.

(** [hash(v)] succeeds on everything but a list and a dict. *)
Definition hashable (v : json) : bool :=
  match v with
  | JArr _ | JObj _ => false
  | _ => true
  end.

(** A [set] of values from a document: the stored elements, pairwise
    different under [set_eq]. *)
Definition pyset : Type := list json.

(** [x in s]. *)
Definition set_contains (x : json) (s : pyset) : bool :=
  existsb (fun a => set_eq a x) s.

(** [s.add(x)]. *)
Definition set_add (x : json) (s : pyset) : result pyset :=
  if hashable x then
    Ok (if set_contains x s then s else s ++ [x])
  else Raise (Unhashable x).

End Py.

(* ================================================================= *)
(** ** Interpreter state and the monad of statements *)

(** The files as [open] + [json.load] see them, the text printed so far
    (one element per call of [print], which writes it followed by a
    newline), and the local variables of [check_mindmaps] ([None] while a
    variable is not yet assigned). *)
Record state : Type := mkState {
  files : string -> load_result;
  stdout : list text;
  modules : option json;
  mindmaps : option json;
  mindmap_module_ids : option Py.pyset;
  missing_modules : option (list text)
}.

(** The state in which the script starts. *)
Definition initial (fs : string -> load_result) : state :=
  mkState fs [] None None None None.

Definition M (A : Type) : Type := state -> result A * state.

Definition ret {A : Type} (a : A) : M A := fun s => (Ok a, s).

Definition raise {A : Type} (e : exn) : M A := fun s => (Raise e, s).

Definition bind {A B : Type} (m : M A) (f : A -> M B) : M B :=
  fun s =>
    match m s with
    | (Ok a, s') => f a s'
    | (Raise e, s') => (Raise e, s')
    end.

(** [try: m except Exception as e: h e]. *)
Definition try_except (m : M unit) (h : exn -> M unit) : M unit :=
  fun s =>
    match m s with
    | (Ok a, s') => (Ok a, s')
    | (Raise e, s') => h e s'
    end.

(** An expression that may raise, evaluated without touching the state. *)
Definition lift {A : Type} (r : result A) : M A := fun s => (r, s).

Declare Scope stmt_scope.
Delimit Scope stmt_scope with stmt.
Notation "x <- m ;; k" := (bind m (fun x => k))
  (at level 61, m at next level, right associativity) : stmt_scope.
Notation "m ;; k" := (bind m (fun _ => k))
  (at level 61, right associativity) : stmt_scope.
Local Open Scope stmt_scope.

(** [for x in l: body x]. *)
Fixpoint for_each {A : Type} (l : list A) (body : A -> M unit) : M unit :=
  match l with
  | [] => ret tt
  | x :: l' => body x ;; for_each l' body
  end.

(** [print(t)]: the text and a newline go to standard output when the
    text can be encoded; otherwise the call raises and nothing of it is
    written. *)
Definition print (t : text) : M unit :=
  fun s =>
    if Py.encodable t then
      (Ok tt, mkState (files s) (stdout s ++ [t]) (modules s)
                      (mindmaps s) (mindmap_module_ids s) (missing_modules s))
    else (Raise (UnicodeEncodeError t), s).

(** [with open(path, 'r', encoding='utf-8') as f: json.load(f)]. *)
Definition json_load (path : string) : M json :=
  fun s =>
    match files s path with
    | Loaded v => (Ok v, s)
    | Unreadable msg => (Raise (LoadError msg), s)
    end.

(** Assignments to the local variables. *)
Definition assign_modules (v : json) : M unit :=
  fun s => (Ok tt, mkState (files s) (stdout s) (Some v)
                           (mindmaps s) (mindmap_module_ids s) (missing_modules s)).

Definition assign_mindmaps (v : json) : M unit :=
  fun s => (Ok tt, mkState (files s) (stdout s) (modules s)
                           (Some v) (mindmap_module_ids s) (missing_modules s)).

Definition assign_mindmap_module_ids (v : Py.pyset) : M unit :=
  fun s => (Ok tt, mkState (files s) (stdout s) (modules s)
                           (mindmaps s) (Some v) (missing_modules s)).

Definition assign_missing_modules (v : list text) : M unit :=
  fun s => (Ok tt, mkState (files s) (stdout s) (modules s)
                           (mindmaps s) (mindmap_module_ids s) (Some v)).

(** Reads of the local variables. *)
Definition read {A : Type} (name : string) (var : state -> option A) : M A :=
  fun s =>
    match var s with
    | Some v => (Ok v, s)
    | None => (Raise (UnboundLocal name), s)
    end.

(** [mindmap_module_ids.add(x)]. *)
Definition mindmap_module_ids_add (x : json) : M unit :=
  ids <- read "mindmap_module_ids" mindmap_module_ids ;;
  ids' <- lift (Py.set_add x ids) ;;
  assign_mindmap_module_ids ids'.

(** [missing_modules.append(line)]. *)
Definition missing_modules_append (line : text) : M unit :=
  l <- read "missing_modules" missing_modules ;;
  assign_missing_modules (l ++ [line]).

(* ================================================================= *)
(** ** The script *)

(** The newline that starts two of the script's literals. *)
Definition nl : text := [10%N].

Section Script.

(** [format(v, '')] for the values that are no [str]: the text that an
    f-string puts for [None], a number, a list or a dict.  It belongs to
    the interpreter, not to the script. *)
Variable format_value : json -> text.

(** [str(e)] of a caught exception, again the interpreter's; its
    messages are written in ASCII. *)
Variable exn_text : exn -> string.

(** [f"{v}"]. *)
Definition fmt (v : json) : text :=
  match v with
  | JStr s => s
  | _ => format_value v
  end.

(** Lines 5-9: the two documents are loaded, the modules first. *)
Definition load_inputs : M unit :=
  v <- json_load "seed/modules.json" ;;
  assign_modules v ;;
  v <- json_load "seed/mindmaps.json" ;;
  assign_mindmaps v.

(** Lines 13-14, the body of [for mm in mindmaps]. *)
Definition reference_step (mm : json) : M unit :=
  v <- lift (Py.get mm "module_id") ;;
  if Py.is_not_none v then
    x <- lift (Py.getitem mm "module_id") ;;
    mindmap_module_ids_add x
  else ret tt.

(** Lines 11-14: the set of referenced ids. *)
Definition build_reference_set : M unit :=
  assign_mindmap_module_ids [] ;;
  mms <- read "mindmaps" mindmaps ;;
  items <- lift (Py.iter mms) ;;
  for_each items reference_step.

(** Lines 16-17: the two counts. *)
Definition print_counts : M unit :=
  ms <- read "modules" modules ;;
  n <- lift (Py.len ms) ;;
  print (txt "Total Modules: " ++ Py.str_int n) ;;
  mms <- read "mindmaps" mindmaps ;;
  n <- lift (Py.len mms) ;;
  print (txt "Total Mindmaps: " ++ Py.str_int n).

(** Lines 21-22, the body of [for i, module in enumerate(modules, 1)]. *)
Definition missing_step (im : Z * json) : M unit :=
  ids <- read "mindmap_module_ids" mindmap_module_ids ;;
  if negb (Py.set_contains (JInt (fst im)) ids) then
    t <- lift (Py.getitem (snd im) "title") ;;
    missing_modules_append
      (txt "ID " ++ Py.str_int (fst im) ++ txt ": " ++ fmt t)
  else ret tt.

(** Lines 19-22: the modules whose position is not referenced. *)
Definition find_missing : M unit :=
  assign_missing_modules [] ;;
  ms <- read "modules" modules ;;
  items <- lift (Py.iter ms) ;;
  for_each (Py.enumerate items 1) missing_step.

(** Lines 24-29: the list of missing modules, or the all-covered line. *)
Definition print_report : M unit :=
  missing <- read "missing_modules" missing_modules ;;
  match missing with
  | _ :: _ =>
      print (nl ++ txt "Modules missing mindmaps:") ;;
      for_each missing print
  | [] =>
      print (nl ++ txt "All modules have at least one mindmap.")
  end.

(** What follows the construction of the set inside the [try] block. *)
Definition report_steps : M unit :=
  print_counts ;; find_missing ;; print_report.

(** The body of the [try] block, lines 5-29. *)
Definition body : M unit :=
  load_inputs ;; build_reference_set ;; report_steps.

(** Lines 5-17: the [try] block up to the two counts. *)
Definition through_counts : M unit :=
  load_inputs ;; build_reference_set ;; print_counts.

(** Lines 5-22: the [try] block up to the end of the second loop, before
    the report is printed. *)
Definition through_scan : M unit :=
  load_inputs ;; build_reference_set ;; print_counts ;; find_missing.

(** Line 32, the handler of [except Exception as e]. *)
Definition handler (e : exn) : M unit :=
  print (txt "Error: " ++ txt (exn_text e)).

(** [check_mindmaps()]. *)
Definition check_mindmaps : M unit :=
  try_except body handler.

(** The state after a run that starts with the files [fs]. *)
Definition run (fs : string -> load_result) : state :=
  snd (check_mindmaps (initial fs)).

(** The file system that a pair of documents stands for: the first at
    the path of the modules, the second at every other path. *)
Definition two_files (a b : load_result) : string -> load_result :=
  fun path => if String.eqb path "seed/modules.json" then a else b.

(** The two documents as lists of records. *)
Definition documents (ms mms : list json) : string -> load_result :=
  two_files (Loaded (JArr ms)) (Loaded (JArr mms)).

(* ================================================================= *)
(** ** Well-formed inputs *)

(** A module record: a dict whose [title] is a text. *)
Definition is_module (v : json) : bool :=
  match v with
  | JObj d => match Py.dict_lookup (txt "title") d with
              | Some (JStr _) => true
              | _ => false
              end
  | _ => false
  end.

(** A mindmap record: a dict whose [module_id] is absent, null or an
    integer. *)
Definition is_mindmap (v : json) : bool :=
  match v with
  | JObj d => match Py.dict_lookup (txt "module_id") d with
              | None | Some JNull | Some (JInt _) => true
              | _ => false
              end
  | _ => false
  end.

(** The record has no reference: [module_id] is absent or null. *)
Definition no_reference (v : json) : bool :=
  match Py.get v "module_id" with
  | Ok JNull => true
  | _ => false
  end.

(** The record refers to the module at position [k]. *)
Definition refers_to (k : Z) (v : json) : bool :=
  match Py.get v "module_id" with
  | Ok (JInt z) => z =? k
  | _ => false
  end.

(** The title of a module record. *)
Definition title_of (v : json) : text :=
  match Py.getitem v "title" with
  | Ok (JStr t) => t
  | _ => []
  end.

(** The lines of the report. *)
Definition modules_line (n : Z) : text := txt "Total Modules: " ++ Py.str_int n.
Definition mindmaps_line (n : Z) : text := txt "Total Mindmaps: " ++ Py.str_int n.
Definition entry_line (k : Z) (title : text) : text :=
  txt "ID " ++ Py.str_int k ++ txt ": " ++ title.
Definition missing_header : text := nl ++ txt "Modules missing mindmaps:".
Definition all_covered : text := nl ++ txt "All modules have at least one mindmap.".

(* ================================================================= *)
(** ** The run as a function of the two documents *)

(** State updates made by the assignments and by [print]. *)
Definition with_ids (ids : Py.pyset) (s : state) : state :=
  mkState (files s) (stdout s) (modules s) (mindmaps s) (Some ids)
          (missing_modules s).

Definition with_missing (l : list text) (s : state) : state :=
  mkState (files s) (stdout s) (modules s) (mindmaps s)
          (mindmap_module_ids s) (Some l).

Definition with_inputs (ms mms : option json) (s : state) : state :=
  mkState (files s) (stdout s) ms mms (mindmap_module_ids s)
          (missing_modules s).

Definition printed (lines : list text) (s : state) : state :=
  mkState (files s) (stdout s ++ lines) (modules s) (mindmaps s)
          (mindmap_module_ids s) (missing_modules s).

(** One round of the first loop on the set alone. *)
Definition add_reference (mm : json) (ids : Py.pyset) : result Py.pyset :=
  match Py.get mm "module_id" with
  | Raise e => Raise e
  | Ok v =>
      if Py.is_not_none v then
        match Py.getitem mm "module_id" with
        | Raise e => Raise e
        | Ok x => Py.set_add x ids
        end
      else Ok ids
  end.

(** The first loop on the set alone: how it ends and the set it leaves. *)
Fixpoint collect_ids (items : list json) (ids : Py.pyset)
  : result unit * Py.pyset :=
  match items with
  | [] => (Ok tt, ids)
  | mm :: rest =>
      match add_reference mm ids with
      | Ok ids' => collect_ids rest ids'
      | Raise e => (Raise e, ids)
      end
  end.

(** One round of the second loop on the list alone. *)
Definition add_missing (ids : Py.pyset) (im : Z * json) (acc : list text)
  : result (list text) :=
  if negb (Py.set_contains (JInt (fst im)) ids) then
    match Py.getitem (snd im) "title" with
    | Raise e => Raise e
    | Ok t => Ok (acc ++ [entry_line (fst im) (fmt t)])
    end
  else Ok acc.

(** The second loop on the list alone. *)
Fixpoint scan_missing (ids : Py.pyset) (items : list (Z * json))
  (acc : list text) : result unit * list text :=
  match items with
  | [] => (Ok tt, acc)
  | im :: rest =>
      match add_missing ids im acc with
      | Ok acc' => scan_missing ids rest acc'
      | Raise e => (Raise e, acc)
      end
  end.

(** The loop that prints the entries: how it ends and what it has
    written by then. *)
Fixpoint write_all (lines : list text) : result unit * list text :=
  match lines with
  | [] => (Ok tt, [])
  | l :: rest =>
      if Py.encodable l then
        (fst (write_all rest), l :: snd (write_all rest))
      else (Raise (UnicodeEncodeError l), [])
  end.

Definition error_line (e : exn) : text := txt "Error: " ++ txt (exn_text e).

(** What the entries leave on standard output by the end of the run: the
    entries up to the first one that cannot be written, and then the
    error line of that one. *)
Fixpoint written (lines : list text) : list text :=
  match lines with
  | [] => []
  | l :: rest =>
      if Py.encodable l then l :: written rest
      else [error_line (UnicodeEncodeError l)]
  end.

(** What the run prints after the counts for a list of missing modules. *)
Definition report_lines (missing : list text) : list text :=
  match missing with
  | [] => [all_covered]
  | _ :: _ => missing_header :: written missing
  end.

(** How far the [try] block gets before the report is printed: it fails
    before the counts, or it fails in the second loop after the counts
    [n] and [n'], or it reaches line 24 with the list of missing
    modules. *)
Inductive progress : Type :=
| FailedEarly (e : exn)
| FailedScan (n n' : Z) (e : exn)
| Scanned (n n' : Z) (missing : list text).

Definition progress_of (a b : load_result) : progress :=
  match a with
  | Unreadable msg => FailedEarly (LoadError msg)
  | Loaded ms =>
  match b with
  | Unreadable msg => FailedEarly (LoadError msg)
  | Loaded mms =>
  match Py.iter mms with
  | Raise e => FailedEarly e
  | Ok items =>
  match collect_ids items [] with
  | (Raise e, _) => FailedEarly e
  | (Ok _, ids) =>
  match Py.len ms with
  | Raise e => FailedEarly e
  | Ok n =>
  match Py.iter ms with
  | Raise e => FailedScan n (Z.of_nat (List.length items)) e
  | Ok mitems =>
  match scan_missing ids (Py.enumerate mitems 1) [] with
  | (Raise e, _) => FailedScan n (Z.of_nat (List.length items)) e
  | (Ok _, missing) => Scanned n (Z.of_nat (List.length items)) missing
  end end end end end end end.

(** How the [try] block ends and what it has printed by then, from the
    two documents. *)
Definition outcome (a b : load_result) : result unit * list text :=
  match progress_of a b with
  | FailedEarly e => (Raise e, [])
  | FailedScan n n' e => (Raise e, [modules_line n; mindmaps_line n'])
  | Scanned n n' [] =>
      (Ok tt, [modules_line n; mindmaps_line n'; all_covered])
  | Scanned n n' missing =>
      (fst (write_all missing),
       modules_line n :: mindmaps_line n' :: missing_header
       :: snd (write_all missing))
  end.

(** The text of a whole run, from the two documents. *)
Definition output (a b : load_result) : list text :=
  match outcome a b with
  | (Ok _, lines) => lines
  | (Raise e, lines) => lines ++ [error_line e]
  end.

(* ================================================================= *)
(** ** Vocabulary of the statements *)

(** The module at the 1-based position [k]. *)
Definition module_at (ms : list json) (k : Z) : json :=
  nth (Z.to_nat (k - 1)) ms JNull.

(** Some record of [mms] refers to position [k]. *)
Definition referenced (mms : list json) (k : Z) : bool :=
  existsb (refers_to k) mms.

(** The positions [1 .. len(ms)] that no record of [mms] refers to, in
    the order of the enumeration. *)
Definition missing_ids (ms mms : list json) : list Z :=
  filter (fun k => negb (referenced mms k)) (map fst (Py.enumerate ms 1)).



(** [m] never changes the component [f] of the state, however it ends. *)
Definition preserves {A B : Type} (f : state -> B) (m : M A) : Prop :=
  forall s, f (snd (m s)) = f s.

(** The elements of a set are pairwise different for the set's test. *)
Definition distinct (s : Py.pyset) : Prop :=
  ForallOrdPairs (fun a b => Py.set_eq a b = false) s.

(** No character of the text is a colon. *)
Definition colon_free (t : text) : bool :=
  forallb (fun c => negb (c =? 58)%N) t.


(** The text [t] starts with the text [p]. *)
Fixpoint starts_with (p t : text) : bool :=
  match p, t with
  | [], _ => true
  | c :: p', d :: t' => N.eqb c d && starts_with p' t'
  | _ :: _, [] => false
  end.

(** A text as the handler writes it: it starts with [Error: ]. *)
Definition is_error_line (t : text) : bool := starts_with (txt "Error: ") t.

(* ================================================================= *)
(** ** Sample documents and a sample interpreter *)

Definition module_record (title : string) : json :=
  JObj [(txt "title", JStr (txt title))].

Definition mindmap_record (id : Z) : json :=
  JObj [(txt "module_id", JInt id)].

(** [{"module_id": null}] and a record with no field at all. *)
Definition null_mindmap : json := JObj [(txt "module_id", JNull)].
Definition empty_record : json := JObj [].

(** [{"title": "\ud800"}]: a title that is one lone surrogate. *)
Definition surrogate_record : json := JObj [(txt "title", JStr [55296%N])].

Definition modules_abc : list json :=
  [module_record "A"; module_record "B"; module_record "C"].

(** An interpreter for the sample runs: [str] of a [KeyError] is the key
    in quotes, [str] of a failed load is its message.  The other
    messages, whose wording changes from one version of the interpreter
    to the next, are cut short, and so is the text of a formatted
    value. *)
Definition sample_format (v : json) : text := txt "<value>".

Definition sample_exn_text (e : exn) : string :=
  match e with
  | LoadError msg => msg
  | KeyError k => String "'" (String.append k "'")
  | UnicodeEncodeError _ => "surrogates not allowed"
  | _ => "<error>"
  end.

(* ================================================================= *)
(** ** Documents that are not well formed *)

(** [None], a boolean or a number: a value with no length and no items. *)
Definition is_scalar (v : json) : bool :=
  match v with
  | JNull | JBool _ | JInt _ | JFloat _ => true
  | _ => false
  end.



(* ================================================================= *)
(** * Properties *)

(** ** Texts that standard output takes *)

Lemma encodable_txt s : Py.encodable (txt s) = true.
Proof.
  unfold txt, Py.encodable. induction s as [|a s IH]; simpl; [reflexivity|].
  rewrite IH, andb_true_r. unfold Py.is_surrogate.
  pose proof (N_ascii_bounded a) as Ha.
  destruct (N.leb_spec 55296 (N_of_ascii a)) as [H|_]; [lia | reflexivity].
Qed.

Lemma encodable_app a b :
  Py.encodable (a ++ b) = Py.encodable a && Py.encodable b.
Proof. apply forallb_app. Qed.

Lemma encodable_modules_line n : Py.encodable (modules_line n) = true.
Proof.
  unfold modules_line, Py.str_int.
  rewrite encodable_app, !encodable_txt. reflexivity.
Qed.

Lemma encodable_mindmaps_line n : Py.encodable (mindmaps_line n) = true.
Proof.
  unfold mindmaps_line, Py.str_int.
  rewrite encodable_app, !encodable_txt. reflexivity.
Qed.

Lemma encodable_entry_line k t :
  Py.encodable (entry_line k t) = Py.encodable t.
Proof.
  unfold entry_line, Py.str_int.
  rewrite !encodable_app, !encodable_txt. reflexivity.
Qed.

Lemma encodable_error_line e : Py.encodable (error_line e) = true.
Proof.
  unfold error_line. rewrite encodable_app, !encodable_txt. reflexivity.
Qed.

(** ** The blocks of the script, one by one *)

Ltac step :=
  unfold mindmap_module_ids_add, missing_modules_append;
  unfold bind, lift, read, ret, raise, json_load, assign_modules,
    assign_mindmaps, assign_mindmap_module_ids, assign_missing_modules;
  simpl.

Lemma with_ids_same s ids :
  mindmap_module_ids s = Some ids -> with_ids ids s = s.
Proof. destruct s; simpl; intros ->; reflexivity. Qed.

Lemma with_missing_same s l :
  missing_modules s = Some l -> with_missing l s = s.
Proof. destruct s; simpl; intros ->; reflexivity. Qed.

Lemma printed_nil s : printed [] s = s.
Proof. destruct s; unfold printed; simpl; rewrite List.app_nil_r; reflexivity. Qed.

(** A text that can be encoded is written. *)
Lemma print_spec t s :
  Py.encodable t = true -> print t s = (Ok tt, printed [t] s).
Proof. intros H. unfold print. rewrite H. reflexivity. Qed.

Lemma load_inputs_spec s :
  load_inputs s =
    match files s "seed/modules.json" with
    | Unreadable msg => (Raise (LoadError msg), s)
    | Loaded ms =>
        match files s "seed/mindmaps.json" with
        | Unreadable msg =>
            (Raise (LoadError msg), with_inputs (Some ms) (mindmaps s) s)
        | Loaded mms => (Ok tt, with_inputs (Some ms) (Some mms) s)
        end
    end.
Proof.
  unfold load_inputs; step.
  destruct (files s "seed/modules.json"); [|reflexivity].
  destruct (files s "seed/mindmaps.json"); reflexivity.
Qed.

Lemma reference_step_spec mm s ids :
  mindmap_module_ids s = Some ids ->
  reference_step mm s =
    match add_reference mm ids with
    | Ok ids' => (Ok tt, with_ids ids' s)
    | Raise e => (Raise e, s)
    end.
Proof.
  intros Hids. unfold reference_step, add_reference; step.
  destruct (Py.get mm "module_id") as [v|e]; [|reflexivity].
  destruct (Py.is_not_none v).
  - destruct (Py.getitem mm "module_id") as [x|e]; [|reflexivity].
    rewrite Hids. destruct (Py.set_add x ids); reflexivity.
  - rewrite (with_ids_same _ _ Hids). reflexivity.
Qed.

Lemma reference_loop_spec items : forall s ids,
  mindmap_module_ids s = Some ids ->
  for_each items reference_step s =
    (fst (collect_ids items ids), with_ids (snd (collect_ids items ids)) s).
Proof.
  induction items as [|mm rest IH]; intros s ids Hids; simpl.
  - rewrite (with_ids_same _ _ Hids). reflexivity.
  - unfold bind. rewrite (reference_step_spec mm s ids Hids).
    destruct (add_reference mm ids) as [ids'|e]; simpl.
    + rewrite (IH (with_ids ids' s) ids' eq_refl). reflexivity.
    + rewrite (with_ids_same _ _ Hids). reflexivity.
Qed.

Lemma build_reference_set_spec s mms :
  mindmaps s = Some mms ->
  build_reference_set s =
    match Py.iter mms with
    | Raise e => (Raise e, with_ids [] s)
    | Ok items =>
        (fst (collect_ids items []), with_ids (snd (collect_ids items [])) s)
    end.
Proof.
  intros Hm. destruct s; simpl in Hm; subst.
  unfold build_reference_set; step.
  destruct (Py.iter mms) as [items|e]; [|reflexivity].
  rewrite (reference_loop_spec items _ []) by reflexivity. reflexivity.
Qed.

Lemma len_of_iterable v items :
  Py.iter v = Ok items -> Py.len v = Ok (Z.of_nat (List.length items)).
Proof.
  destruct v; simpl; try discriminate; intros [= <-]; do 2 f_equal;
    unfold Py.chars; symmetry; apply length_map.
Qed.

Lemma print_counts_spec s ms mms :
  modules s = Some ms -> mindmaps s = Some mms ->
  print_counts s =
    match Py.len ms with
    | Raise e => (Raise e, s)
    | Ok n =>
        match Py.len mms with
        | Raise e => (Raise e, printed [modules_line n] s)
        | Ok n' => (Ok tt, printed [modules_line n; mindmaps_line n'] s)
        end
    end.
Proof.
  intros Hms Hmms. destruct s; simpl in Hms, Hmms; subst.
  unfold print_counts; step.
  destruct (Py.len ms) as [n|e]; [|reflexivity].
  fold (modules_line n). rewrite (print_spec _ _ (encodable_modules_line n)).
  simpl. destruct (Py.len mms) as [n'|e]; [|reflexivity].
  fold (mindmaps_line n').
  rewrite (print_spec _ _ (encodable_mindmaps_line n')).
  unfold printed; simpl. rewrite <- List.app_assoc. reflexivity.
Qed.

Lemma missing_step_spec im s ids acc :
  mindmap_module_ids s = Some ids ->
  missing_modules s = Some acc ->
  missing_step im s =
    match add_missing ids im acc with
    | Ok acc' => (Ok tt, with_missing acc' s)
    | Raise e => (Raise e, s)
    end.
Proof.
  intros Hids Hacc. destruct s; simpl in Hids, Hacc; subst.
  unfold missing_step, add_missing; step.
  destruct (Py.set_contains (JInt (fst im)) ids); simpl; [reflexivity|].
  destruct (Py.getitem (snd im) "title"); reflexivity.
Qed.

Lemma missing_loop_spec ids items : forall s acc,
  mindmap_module_ids s = Some ids ->
  missing_modules s = Some acc ->
  for_each items missing_step s =
    (fst (scan_missing ids items acc),
     with_missing (snd (scan_missing ids items acc)) s).
Proof.
  induction items as [|im rest IH]; intros s acc Hids Hacc; simpl.
  - rewrite (with_missing_same _ _ Hacc). reflexivity.
  - unfold bind. rewrite (missing_step_spec im s ids acc Hids Hacc).
    destruct (add_missing ids im acc) as [acc'|e]; simpl.
    + rewrite (IH (with_missing acc' s) acc') by (simpl; auto).
      reflexivity.
    + rewrite (with_missing_same _ _ Hacc). reflexivity.
Qed.

Lemma find_missing_spec s ms ids :
  modules s = Some ms ->
  mindmap_module_ids s = Some ids ->
  find_missing s =
    match Py.iter ms with
    | Raise e => (Raise e, with_missing [] s)
    | Ok items =>
        (fst (scan_missing ids (Py.enumerate items 1) []),
         with_missing (snd (scan_missing ids (Py.enumerate items 1) [])) s)
    end.
Proof.
  intros Hms Hids. destruct s; simpl in Hms, Hids; subst.
  unfold find_missing; step.
  destruct (Py.iter ms) as [items|e]; [|reflexivity].
  rewrite (missing_loop_spec ids _ _ []) by reflexivity. reflexivity.
Qed.

(** The loop over the entries writes them in order and stops at the
    first one that cannot be written. *)
Lemma print_loop_spec lines : forall s,
  for_each lines print s =
    (fst (write_all lines), printed (snd (write_all lines)) s).
Proof.
  induction lines as [|l rest IH]; intros s; simpl.
  - rewrite printed_nil. reflexivity.
  - unfold bind, print at 1. destruct (Py.encodable l); simpl.
    + rewrite IH. unfold printed; simpl.
      rewrite <- List.app_assoc. reflexivity.
    + rewrite printed_nil. reflexivity.
Qed.

Lemma encodable_missing_header : Py.encodable missing_header = true.
Proof. reflexivity. Qed.

Lemma encodable_all_covered : Py.encodable all_covered = true.
Proof. reflexivity. Qed.

Lemma print_report_spec s missing :
  missing_modules s = Some missing ->
  print_report s =
    match missing with
    | [] => (Ok tt, printed [all_covered] s)
    | _ :: _ =>
        (fst (write_all missing),
         printed (missing_header :: snd (write_all missing)) s)
    end.
Proof.
  intros Hm. destruct s; simpl in Hm; subst.
  unfold print_report, bind, read; cbv beta iota; simpl missing_modules.
  cbv iota beta. destruct missing as [|l rest].
  - fold all_covered. apply (print_spec _ _ encodable_all_covered).
  - fold missing_header.
    rewrite (print_spec _ _ encodable_missing_header).
    rewrite print_loop_spec.
    unfold printed; simpl stdout. rewrite <- List.app_assoc. reflexivity.
Qed.

(** The [try] block is its first four blocks followed by the report. *)
Lemma body_through_scan s :
  body s =
    match through_scan s with
    | (Ok _, s') => print_report s'
    | (Raise e, s') => (Raise e, s')
    end.
Proof.
  unfold body, report_steps, through_scan, bind.
  destruct (load_inputs s) as [[[]|e1] s1]; [|reflexivity].
  destruct (build_reference_set s1) as [[[]|e2] s2]; [|reflexivity].
  destruct (print_counts s2) as [[[]|e3] s3]; [|reflexivity].
  destruct (find_missing s3) as [[[]|e4] s4]; reflexivity.
Qed.

(** How far the first four blocks get, and what they have printed. *)
Lemma through_scan_spec s :
  match progress_of (files s "seed/modules.json")
                    (files s "seed/mindmaps.json") with
  | FailedEarly e =>
      fst (through_counts s) = Raise e /\
      fst (through_scan s) = Raise e /\
      stdout (snd (through_scan s)) = stdout s
  | FailedScan n n' e =>
      fst (through_counts s) = Ok tt /\
      fst (through_scan s) = Raise e /\
      stdout (snd (through_scan s)) =
        stdout s ++ [modules_line n; mindmaps_line n']
  | Scanned n n' missing =>
      fst (through_counts s) = Ok tt /\
      exists s', through_scan s = (Ok tt, s') /\
        missing_modules s' = Some missing /\
        stdout s' = stdout s ++ [modules_line n; mindmaps_line n']
  end.
Proof.
  unfold progress_of, through_counts, through_scan, bind.
  rewrite load_inputs_spec.
  destruct (files s "seed/modules.json") as [ms|msg]; [|simpl; auto].
  destruct (files s "seed/mindmaps.json") as [mms|msg]; [|simpl; auto].
  rewrite (build_reference_set_spec _ mms) by reflexivity.
  destruct (Py.iter mms) as [items|e] eqn:Hit; [|simpl; auto].
  destruct (collect_ids items []) as [[[]|e] ids]; [|simpl; auto].
  simpl fst; simpl snd; cbv iota beta.
  rewrite (print_counts_spec _ ms mms) by reflexivity.
  destruct (Py.len ms) as [n|e]; [|simpl; auto].
  rewrite (len_of_iterable _ _ Hit).
  rewrite (find_missing_spec _ ms ids) by reflexivity.
  destruct (Py.iter ms) as [mitems|e]; [|simpl; auto].
  destruct (scan_missing ids (Py.enumerate mitems 1) []) as [[[]|e] missing];
    simpl; [|auto].
  split; [reflexivity|]. eexists. split; [reflexivity|]. simpl. auto.
Qed.

(** The [try] block ends as [outcome] says and has printed what it
    says. *)
Lemma body_spec s :
  fst (body s) =
    fst (outcome (files s "seed/modules.json") (files s "seed/mindmaps.json"))
  /\ stdout (snd (body s)) =
       stdout s ++
       snd (outcome (files s "seed/modules.json")
                    (files s "seed/mindmaps.json")).
Proof.
  rewrite body_through_scan. unfold outcome.
  pose proof (through_scan_spec s) as H.
  destruct (progress_of _ _) as [e|n n' e|n n' missing].
  - destruct H as [_ [Hr Ho]].
    destruct (through_scan s) as [[[]|e'] s']; simpl in Hr, Ho;
      [discriminate|]. injection Hr as ->. simpl.
    rewrite List.app_nil_r. auto.
  - destruct H as [_ [Hr Ho]].
    destruct (through_scan s) as [[[]|e'] s']; simpl in Hr, Ho;
      [discriminate|]. injection Hr as ->. simpl. auto.
  - destruct H as [_ [s' [-> [Hm Ho]]]].
    rewrite (print_report_spec _ _ Hm).
    destruct missing as [|l rest]; simpl; rewrite Ho, <- List.app_assoc;
      auto.
Qed.

(** The handler's line is always written. *)
Lemma handler_spec e s : handler e s = (Ok tt, printed [error_line e] s).
Proof. apply (print_spec _ _ (encodable_error_line e)). Qed.

(** No exception leaves [check_mindmaps]. *)
Lemma check_mindmaps_returns s : fst (check_mindmaps s) = Ok tt.
Proof.
  unfold check_mindmaps, try_except.
  destruct (body s) as [[[]|e] s']; [reflexivity|].
  rewrite handler_spec. reflexivity.
Qed.

(** The text that a call appends to standard output. *)
Lemma check_mindmaps_stdout s :
  stdout (snd (check_mindmaps s)) =
    stdout s ++
    output (files s "seed/modules.json") (files s "seed/mindmaps.json").
Proof.
  destruct (body_spec s) as [Hr Ho]. unfold check_mindmaps, try_except, output.
  destruct (body s) as [r s']; simpl in Hr, Ho.
  destruct (outcome _ _) as [r' lines]; simpl in Hr, Ho; subst r'.
  destruct r as [[]|e]; simpl; [assumption|].
  rewrite handler_spec. simpl. rewrite Ho, <- List.app_assoc. reflexivity.
Qed.

Lemma run_stdout fs :
  stdout (run fs) = output (fs "seed/modules.json") (fs "seed/mindmaps.json").
Proof. unfold run. rewrite check_mindmaps_stdout. reflexivity. Qed.

Lemma run_body fs :
  fst (body (initial fs)) =
    fst (outcome (fs "seed/modules.json") (fs "seed/mindmaps.json")).
Proof. apply (body_spec (initial fs)). Qed.

(** ** What a statement leaves alone *)

Lemma preserves_bind {A B C : Type} (f : state -> C) (m : M A) (k : A -> M B) :
  preserves f m -> (forall a, preserves f (k a)) -> preserves f (bind m k).
Proof.
  intros Hm Hk s. unfold bind. specialize (Hm s).
  destruct (m s) as [[a|e] s']; simpl in *; [|assumption].
  rewrite Hk. assumption.
Qed.

Lemma preserves_for_each {A C : Type} (f : state -> C) (l : list A)
  (step : A -> M unit) :
  (forall a, preserves f (step a)) -> preserves f (for_each l step).
Proof.
  intros Hs. induction l as [|a l IH]; simpl.
  - intros s; reflexivity.
  - apply preserves_bind; auto.
Qed.

Lemma preserves_try_except {C : Type} (f : state -> C) (m : M unit)
  (h : exn -> M unit) :
  preserves f m -> (forall e, preserves f (h e)) ->
  preserves f (try_except m h).
Proof.
  intros Hm Hh s. unfold try_except. specialize (Hm s).
  destruct (m s) as [[a|e] s']; simpl in *; [assumption|].
  rewrite Hh. assumption.
Qed.

Lemma preserves_read {A C : Type} (f : state -> C) name (var : state -> option A) :
  preserves f (read name var).
Proof. intros s. unfold read. destruct (var s); reflexivity. Qed.

Lemma preserves_json_load {C : Type} (f : state -> C) path :
  preserves f (json_load path).
Proof. intros s. unfold json_load. destruct (files s path); reflexivity. Qed.

(** Splits a block into its statements; what is left are the assignments
    and [print], which change one component each. *)
Ltac frame :=
  lazymatch goal with
  | |- preserves _ (bind _ _) =>
      apply preserves_bind; [frame | intros; frame]
  | |- preserves _ (for_each _ _) =>
      apply preserves_for_each; intros; frame
  | |- preserves _ (try_except _ _) =>
      apply preserves_try_except; [frame | intros; frame]
  | |- preserves _ (read _ _) => apply preserves_read
  | |- preserves _ (json_load _) => apply preserves_json_load
  | |- preserves _ (print ?t) =>
      intros ?; unfold print; destruct (Py.encodable t); reflexivity
  | |- preserves _ (match ?x with _ => _ end) => destruct x; frame
  | |- preserves _ _ => intros ?; reflexivity
  end.

(** The files are only read. *)
Lemma check_mindmaps_files : preserves files check_mindmaps.
Proof.
  unfold check_mindmaps, body, handler, load_inputs, build_reference_set,
    report_steps, print_counts, find_missing, print_report, reference_step,
    missing_step, mindmap_module_ids_add, missing_modules_append.
  frame.
Qed.

(** Once the two documents are loaded, nothing assigns to [modules] or
    [mindmaps] again. *)
Lemma after_load_modules :
  preserves modules (bind build_reference_set (fun _ => report_steps)).
Proof.
  unfold build_reference_set, report_steps, print_counts, find_missing,
    print_report, reference_step, missing_step, mindmap_module_ids_add,
    missing_modules_append.
  frame.
Qed.

Lemma after_load_mindmaps :
  preserves mindmaps (bind build_reference_set (fun _ => report_steps)).
Proof.
  unfold build_reference_set, report_steps, print_counts, find_missing,
    print_report, reference_step, missing_step, mindmap_module_ids_add,
    missing_modules_append.
  frame.
Qed.

(** Once the set is built, nothing adds to it. *)
Lemma report_steps_ids : preserves mindmap_module_ids report_steps.
Proof.
  unfold report_steps, print_counts, find_missing, print_report,
    missing_step, missing_modules_append.
  frame.
Qed.

Lemma handler_ids e : preserves mindmap_module_ids (handler e).
Proof. intros s. rewrite handler_spec. reflexivity. Qed.

(** ** Texts of the report *)

Lemma colon_free_uint d : colon_free (txt (NilEmpty.string_of_uint d)) = true.
Proof. induction d; simpl; auto. Qed.

Lemma colon_free_uint_zero d :
  colon_free (txt (NilZero.string_of_uint d)) = true.
Proof. destruct d; try apply colon_free_uint. reflexivity. Qed.

Lemma colon_free_str_int z : colon_free (Py.str_int z) = true.
Proof.
  unfold Py.str_int, NilZero.string_of_int.
  destruct (Z.to_int z) as [d|d]; [apply colon_free_uint_zero|].
  change (colon_free (45%N :: txt (NilZero.string_of_uint d)) = true).
  simpl. apply colon_free_uint_zero.
Qed.

(** Two colon-free texts followed by a colon start equal texts only when
    they are the same. *)
Lemma colon_free_prefix (d : text) : forall (d' r r' : text),
  colon_free d = true -> colon_free d' = true ->
  d ++ 58%N :: r = d' ++ 58%N :: r' -> d = d' /\ r = r'.
Proof.
  induction d as [|c d IH]; intros [|c' d'] r r' Hd Hd' E; simpl in *.
  - injection E as ->. auto.
  - injection E as <- _. discriminate.
  - injection E as -> _. discriminate.
  - injection E as -> E.
    apply andb_prop in Hd as [_ Hd]. apply andb_prop in Hd' as [_ Hd'].
    destruct (IH d' r r' Hd Hd' E) as [-> ->]. auto.
Qed.

Lemma txt_inj s s' : txt s = txt s' -> s = s'.
Proof.
  unfold txt. revert s'.
  induction s as [|a s IH]; intros [|a' s']; simpl; try discriminate;
    [reflexivity|].
  intros [= Ha Hs]. f_equal; [|apply IH, Hs].
  rewrite <- (ascii_N_embedding a), <- (ascii_N_embedding a'), Ha.
  reflexivity.
Qed.

Lemma to_int_proper z :
  Z.to_int z <> Decimal.Pos Decimal.Nil /\ Z.to_int z <> Decimal.Neg Decimal.Nil.
Proof.
  destruct z as [|p|p]; simpl; split; try discriminate;
    intros [= H]; apply (DecimalPos.Unsigned.to_uint_nonnil p H).
Qed.

Lemma str_int_inj z z' : Py.str_int z = Py.str_int z' -> z = z'.
Proof.
  unfold Py.str_int. intros E. apply txt_inj in E.
  apply DecimalZ.to_int_inj.
  destruct (to_int_proper z) as [Hp Hn], (to_int_proper z') as [Hp' Hn'].
  pose proof (NilZero.isi _ Hp Hn) as H. rewrite E in H.
  rewrite (NilZero.isi _ Hp' Hn') in H. congruence.
Qed.

(** An entry names its position and its title. *)
Lemma entry_line_inj k t k' t' :
  entry_line k t = entry_line k' t' -> k = k' /\ t = t'.
Proof.
  unfold entry_line. intros E. apply app_inv_head in E.
  change (txt ": ") with [58%N; 32%N] in E. simpl app in E.
  destruct (colon_free_prefix _ _ _ _ (colon_free_str_int k)
              (colon_free_str_int k') E) as [Hk Ht].
  split; [apply str_int_inj; assumption | congruence].
Qed.

Lemma entry_line_not_count k t n :
  entry_line k t <> modules_line n /\ entry_line k t <> mindmaps_line n.
Proof. split; discriminate. Qed.

Lemma entry_line_not_heading k t :
  entry_line k t <> missing_header /\ entry_line k t <> all_covered.
Proof. split; discriminate. Qed.

Lemma entry_line_not_error k t e : entry_line k t <> error_line e.
Proof. discriminate. Qed.

(** ** The enumeration of the modules *)

Lemma enumerate_spec (l : list json) : forall start,
  Forall (fun im => start <= fst im < start + Z.of_nat (List.length l)
                    /\ snd im = nth (Z.to_nat (fst im - start)) l JNull)
         (Py.enumerate l start).
Proof.
  induction l as [|x l IH]; intros start; simpl; constructor.
  - simpl. rewrite Z.sub_diag. split; [lia | reflexivity].
  - eapply Forall_impl; [|apply (IH (start + 1))].
    intros [k m]; simpl. intros [Hk ->]. split; [lia|].
    replace (Z.to_nat (k - start)) with (S (Z.to_nat (k - (start + 1))))
      by lia.
    reflexivity.
Qed.

Lemma enumerate_positions (l : list json) : forall start k,
  In k (map fst (Py.enumerate l start)) <->
  start <= k < start + Z.of_nat (List.length l).
Proof.
  induction l as [|x l IH]; intros start k; simpl.
  - split; [tauto | lia].
  - rewrite IH. lia.
Qed.

Lemma enumerate_ascending (l : list json) : forall start,
  StronglySorted Z.lt (map fst (Py.enumerate l start)).
Proof.
  induction l as [|x l IH]; intros start; simpl; constructor.
  - apply IH.
  - apply Forall_forall. intros k Hk.
    apply enumerate_positions in Hk. lia.
Qed.

Lemma filter_ascending (p : Z -> bool) l :
  StronglySorted Z.lt l -> StronglySorted Z.lt (filter p l).
Proof.
  induction 1 as [|k l Hl IH Hk]; simpl; [constructor|].
  destruct (p k); [|assumption].
  constructor; [assumption|].
  apply Forall_forall. intros j Hj. apply filter_In in Hj as [Hj _].
  rewrite Forall_forall in Hk. auto.
Qed.

(** A list of pairs whose second component is a function of the first:
    filtering and mapping it is filtering and mapping the first
    components. *)
Lemma map_filter_fst {B : Type} (g : Z -> json) (p : Z -> bool)
  (F : Z -> json -> B) (l : list (Z * json)) :
  Forall (fun im => snd im = g (fst im)) l ->
  map (fun im => F (fst im) (snd im)) (filter (fun im => p (fst im)) l) =
  map (fun k => F k (g k)) (filter p (map fst l)).
Proof.
  induction 1 as [|[k m] l Hx Hl IH]; simpl; [reflexivity|].
  simpl in Hx. destruct (p k); simpl; rewrite IH; congruence.
Qed.

Lemma missing_ids_spec ms mms k :
  In k (missing_ids ms mms) <->
  1 <= k <= Z.of_nat (List.length ms) /\ referenced mms k = false.
Proof.
  unfold missing_ids. rewrite filter_In, enumerate_positions.
  rewrite negb_true_iff. intuition lia.
Qed.

Lemma missing_ids_ascending ms mms : StronglySorted Z.lt (missing_ids ms mms).
Proof. apply filter_ascending, enumerate_ascending. Qed.

Lemma referenced_spec mms k :
  referenced mms k = true <->
  exists mm, In mm mms /\ Py.get mm "module_id" = Ok (JInt k).
Proof.
  unfold referenced. rewrite existsb_exists.
  split; intros [mm [Hin H]]; exists mm; split; auto.
  - unfold refers_to in H.
    destruct (Py.get mm "module_id") as [[]|]; try discriminate.
    apply Z.eqb_eq in H. congruence.
  - unfold refers_to. rewrite H. apply Z.eqb_refl.
Qed.

Lemma not_referenced_spec mms k :
  referenced mms k = false <->
  forall mm, In mm mms -> Py.get mm "module_id" <> Ok (JInt k).
Proof.
  rewrite <- not_true_iff_false, referenced_spec. split.
  - intros H mm Hin E. apply H. exists mm. auto.
  - intros H [mm [Hin E]]. exact (H mm Hin E).
Qed.

(** ** The set of referenced ids *)

Lemma set_contains_snoc x s y :
  Py.set_contains x (s ++ [y]) = Py.set_contains x s || Py.set_eq y x.
Proof.
  unfold Py.set_contains. rewrite existsb_app. simpl.
  rewrite orb_false_r. reflexivity.
Qed.

(** A well-formed record adds its [module_id], when it has one. *)
Lemma add_reference_mindmap mm ids :
  is_mindmap mm = true ->
  exists ids', add_reference mm ids = Ok ids' /\
    forall k, Py.set_contains (JInt k) ids' =
              Py.set_contains (JInt k) ids || refers_to k mm.
Proof.
  destruct mm as [| | | | | |d]; try discriminate.
  unfold is_mindmap, add_reference, refers_to, Py.get, Py.getitem.
  destruct (Py.dict_lookup _ d) as [[| |z| | | |]|];
    try discriminate; intros _; simpl.
  - exists ids. split; [reflexivity|]. intros k. now rewrite orb_false_r.
  - unfold Py.set_add; simpl. eexists. split; [reflexivity|]. intros k.
    destruct (Py.set_contains (JInt z) ids) eqn:Hz.
    + destruct (Z.eqb_spec z k) as [->|_].
      * rewrite Hz. reflexivity.
      * now rewrite orb_false_r.
    + apply set_contains_snoc.
  - exists ids. split; [reflexivity|]. intros k. now rewrite orb_false_r.
Qed.

Lemma collect_ids_mindmaps mms : forall ids,
  forallb is_mindmap mms = true ->
  fst (collect_ids mms ids) = Ok tt /\
  forall k, Py.set_contains (JInt k) (snd (collect_ids mms ids)) =
            Py.set_contains (JInt k) ids || referenced mms k.
Proof.
  induction mms as [|mm mms IH]; intros ids Hwf; simpl.
  - split; [reflexivity|]. intros k. now rewrite orb_false_r.
  - simpl in Hwf. apply andb_prop in Hwf as [Hmm Hwf].
    destruct (add_reference_mindmap mm ids Hmm) as [ids' [-> Hids']].
    destruct (IH ids' Hwf) as [Hr Hc]. split; [assumption|].
    intros k. rewrite Hc, Hids', orb_assoc. reflexivity.
Qed.

(** A record without a reference leaves the set as it is. *)
Lemma add_reference_none mm ids :
  no_reference mm = true -> add_reference mm ids = Ok ids.
Proof.
  unfold no_reference, add_reference.
  destruct (Py.get mm "module_id") as [[]|]; try discriminate. reflexivity.
Qed.

Lemma collect_ids_without_none mms : forall ids,
  collect_ids (filter (fun mm => negb (no_reference mm)) mms) ids =
  collect_ids mms ids.
Proof.
  induction mms as [|mm mms IH]; intros ids; simpl; [reflexivity|].
  destruct (no_reference mm) eqn:Hn; simpl.
  - rewrite (add_reference_none mm ids Hn). apply IH.
  - destruct (add_reference mm ids); [apply IH | reflexivity].
Qed.

Lemma distinct_snoc s x :
  distinct s -> Py.set_contains x s = false -> distinct (s ++ [x]).
Proof.
  unfold distinct, Py.set_contains. intros Hs Hx.
  induction Hs as [|a l Ha Hl IH]; simpl in *.
  - repeat constructor.
  - apply orb_false_elim in Hx as [Hax Hx]. constructor; [|auto].
    apply Forall_app. split; [assumption|]. constructor; [assumption|].
    constructor.
Qed.

Lemma distinct_set_add x s s' :
  distinct s -> Py.set_add x s = Ok s' -> distinct s'.
Proof.
  unfold Py.set_add. destruct (Py.hashable x); [|discriminate].
  intros Hs [= <-]. destruct (Py.set_contains x s) eqn:Hx; [assumption|].
  apply distinct_snoc; assumption.
Qed.

Lemma distinct_add_reference mm ids ids' :
  distinct ids -> add_reference mm ids = Ok ids' -> distinct ids'.
Proof.
  unfold add_reference. intros Hs.
  destruct (Py.get mm "module_id") as [v|]; [|discriminate].
  destruct (Py.is_not_none v); [|congruence].
  destruct (Py.getitem mm "module_id") as [x|]; [|discriminate].
  apply distinct_set_add; assumption.
Qed.

(** The first loop keeps the elements of the set pairwise different. *)
Lemma distinct_collect_ids items : forall ids,
  distinct ids -> distinct (snd (collect_ids items ids)).
Proof.
  induction items as [|mm rest IH]; intros ids Hs; simpl; [assumption|].
  destruct (add_reference mm ids) as [ids'|e] eqn:E; [|assumption].
  apply IH. eapply distinct_add_reference; eassumption.
Qed.

(** ** The scan for missing modules *)

Lemma add_missing_module ids im acc :
  is_module (snd im) = true ->
  add_missing ids im acc =
    Ok (if negb (Py.set_contains (JInt (fst im)) ids)
        then (acc ++ [entry_line (fst im) (title_of (snd im))])%list
        else acc).
Proof.
  unfold add_missing, is_module, title_of, Py.getitem.
  destruct (snd im) as [| | | | | |d]; try discriminate.
  destruct (Py.dict_lookup _ d) as [[]|]; try discriminate.
  intros _. destruct (negb _); reflexivity.
Qed.

Lemma scan_missing_modules ids ms : forall start acc,
  forallb is_module ms = true ->
  scan_missing ids (Py.enumerate ms start) acc =
    (Ok tt,
     (acc ++ map (fun im => entry_line (fst im) (title_of (snd im)))
               (filter (fun im => negb (Py.set_contains (JInt (fst im)) ids))
                       (Py.enumerate ms start)))%list).
Proof.
  induction ms as [|m ms IH]; intros start acc Hwf; simpl.
  - now rewrite List.app_nil_r.
  - simpl in Hwf. apply andb_prop in Hwf as [Hm Hwf].
    rewrite (add_missing_module ids (start, m) acc Hm). simpl.
    destruct (negb (Py.set_contains (JInt start) ids)); rewrite IH by assumption.
    + simpl. rewrite <- List.app_assoc. reflexivity.
    + reflexivity.
Qed.


(** ** Writing the entries *)

Lemma written_spec lines :
  written lines =
    snd (write_all lines) ++
    match fst (write_all lines) with
    | Ok _ => []
    | Raise e => [error_line e]
    end.
Proof.
  induction lines as [|l rest IH]; simpl; [reflexivity|].
  destruct (Py.encodable l); simpl; [|reflexivity].
  rewrite IH. reflexivity.
Qed.


Lemma written_all lines :
  forallb Py.encodable lines = true -> written lines = lines.
Proof.
  induction lines as [|l rest IH]; simpl; [reflexivity|].
  intros H. apply andb_prop in H as [-> H]. rewrite IH by assumption.
  reflexivity.
Qed.

(** When the second loop ends normally the run prints the counts and the
    report, and ends as the writing of the entries does. *)
Lemma output_scanned a b n n' missing :
  progress_of a b = Scanned n n' missing ->
  fst (outcome a b) = fst (write_all missing) /\
  output a b = modules_line n :: mindmaps_line n' :: report_lines missing.
Proof.
  intros H. unfold output, outcome. rewrite H.
  destruct missing as [|l rest]; [split; reflexivity|].
  split; [reflexivity|]. unfold report_lines. rewrite written_spec.
  destruct (write_all (l :: rest)) as [[[]|e] shown]; simpl.
  - rewrite List.app_nil_r. reflexivity.
  - reflexivity.
Qed.

(** An entry is left on standard output exactly when its position is
    among the listed ones, its title is that position's, and every
    listed entry up to it can be written. *)
Lemma in_written_entries (g : Z -> text) k t ks :
  StronglySorted Z.lt ks ->
  In (entry_line k t) (written (map (fun j => entry_line j (g j)) ks))
  <-> In k ks /\ t = g k /\
      forall j, In j ks -> j <= k -> Py.encodable (g j) = true.
Proof.
  induction 1 as [|j0 ks Hs IH Hlt]; [simpl; tauto|].
  cbn [map written]. rewrite Forall_forall in Hlt.
  rewrite encodable_entry_line.
  destruct (Py.encodable (g j0)) eqn:H0; cbn [In].
  - rewrite IH. split.
    + intros [E|[Hk [Ht Hall]]].
      * apply entry_line_inj in E as [-> ->].
        split; [auto|]. split; [reflexivity|].
        intros j [<-|Hj] Hle; [exact H0|]. apply Hlt in Hj. lia.
      * split; [auto|]. split; [exact Ht|].
        intros j [<-|Hj] Hle; [exact H0 | auto].
    + intros [[->|Hk] [-> Hall]]; [left; reflexivity|].
      right. split; [exact Hk|]. split; [reflexivity|]. auto.
  - split.
    + intros [E|[]]. symmetry in E.
      destruct (entry_line_not_error _ _ _ E).
    + intros [Hk [_ Hall]].
      assert (Hle : j0 <= k).
      { destruct Hk as [->|Hk]; [lia|]. apply Hlt in Hk. lia. }
      rewrite (Hall j0 (or_introl eq_refl) Hle) in H0. discriminate.
Qed.

Lemma in_report_lines (g : Z -> text) n n' k t ks :
  StronglySorted Z.lt ks ->
  In (entry_line k t)
     (modules_line n :: mindmaps_line n'
      :: report_lines (map (fun j => entry_line j (g j)) ks))
  <-> In k ks /\ t = g k /\
      forall j, In j ks -> j <= k -> Py.encodable (g j) = true.
Proof.
  intros Hs. rewrite <- (in_written_entries g k t ks Hs).
  destruct (entry_line_not_count k t n) as [N1 _].
  destruct (entry_line_not_count k t n') as [_ N2].
  destruct (entry_line_not_heading k t) as [N3 N4].
  unfold report_lines.
  destruct ks as [|j0 ks']; simpl map.
  - simpl. split; [|tauto]. intros [E|[E|[E|[]]]]; congruence.
  - set (W := written _). simpl. split; [|tauto].
    intros [E|[E|[E|H]]]; [congruence | congruence | congruence | exact H].
Qed.

(** ** Runs on well-formed documents *)

Lemma progress_modules ms mms ids :
  collect_ids mms [] = (Ok tt, ids) ->
  forallb is_module ms = true ->
  progress_of (Loaded (JArr ms)) (Loaded (JArr mms)) =
    Scanned (Z.of_nat (List.length ms)) (Z.of_nat (List.length mms))
      (map (fun k => entry_line k (title_of (module_at ms k)))
           (filter (fun k => negb (Py.set_contains (JInt k) ids))
                   (map fst (Py.enumerate ms 1)))).
Proof.
  intros Hc Hms. unfold progress_of; simpl. rewrite Hc.
  rewrite (scan_missing_modules ids ms 1 [] Hms). simpl. f_equal.
  apply (map_filter_fst (module_at ms)
           (fun k => negb (Py.set_contains (JInt k) ids))
           (fun k m => entry_line k (title_of m))).
  eapply Forall_impl; [|apply (enumerate_spec ms 1)].
  intros im [_ H]. exact H.
Qed.

Lemma progress_well_formed ms mms :
  forallb is_module ms = true ->
  forallb is_mindmap mms = true ->
  progress_of (Loaded (JArr ms)) (Loaded (JArr mms)) =
    Scanned (Z.of_nat (List.length ms)) (Z.of_nat (List.length mms))
      (map (fun k => entry_line k (title_of (module_at ms k)))
           (missing_ids ms mms)).
Proof.
  intros Hms Hmms.
  destruct (collect_ids_mindmaps mms [] Hmms) as [Hr Hc].
  destruct (collect_ids mms []) as [r ids] eqn:E; simpl in Hr, Hc; subst r.
  rewrite (progress_modules ms mms ids E Hms). do 2 f_equal.
  unfold missing_ids. apply filter_ext. intros k. now rewrite Hc.
Qed.

Lemma run_well_formed ms mms :
  forallb is_module ms = true ->
  forallb is_mindmap mms = true ->
  fst (body (initial (documents ms mms))) =
    fst (write_all (map (fun k => entry_line k (title_of (module_at ms k)))
                        (missing_ids ms mms))) /\
  stdout (run (documents ms mms)) =
    modules_line (Z.of_nat (List.length ms))
    :: mindmaps_line (Z.of_nat (List.length mms))
    :: report_lines
         (map (fun k => entry_line k (title_of (module_at ms k)))
              (missing_ids ms mms)).
Proof.
  intros Hms Hmms. rewrite run_body, run_stdout.
  change (documents ms mms "seed/modules.json") with (Loaded (JArr ms)).
  change (documents ms mms "seed/mindmaps.json") with (Loaded (JArr mms)).
  apply output_scanned, progress_well_formed; assumption.
Qed.

(** The missing positions depend on the mindmaps only through the
    positions in range that they refer to. *)
Lemma missing_ids_ext ms mms mms' :
  (forall k, 1 <= k <= Z.of_nat (List.length ms) ->
             referenced mms k = referenced mms' k) ->
  missing_ids ms mms = missing_ids ms mms'.
Proof.
  intros H. unfold missing_ids. apply filter_ext_in. intros k Hk.
  apply enumerate_positions in Hk. rewrite H by lia. reflexivity.
Qed.

Lemma referenced_insert a b r k :
  referenced (a ++ r :: b) k = refers_to k r || referenced (a ++ b) k.
Proof.
  unfold referenced. rewrite !existsb_app. simpl.
  destruct (existsb (refers_to k) a), (refers_to k r); reflexivity.
Qed.

(** Inserting a record changes the count of mindmaps and, when it adds no
    reference to a position in range, nothing else: the run ends as it
    does without the record. *)
Lemma insert_record ms a b r :
  forallb is_module ms = true ->
  forallb is_mindmap (a ++ b) = true ->
  is_mindmap r = true ->
  (forall k, 1 <= k <= Z.of_nat (List.length ms) ->
             refers_to k r = true -> referenced (a ++ b) k = true) ->
  fst (body (initial (documents ms (a ++ r :: b)))) =
  fst (body (initial (documents ms (a ++ b)))) /\
  exists first rest,
    stdout (run (documents ms (a ++ b))) =
      first :: mindmaps_line (Z.of_nat (List.length (a ++ b))) :: rest /\
    stdout (run (documents ms (a ++ r :: b))) =
      first :: mindmaps_line (Z.of_nat (List.length (a ++ b)) + 1) :: rest.
Proof.
  intros Hms Hab Hr Hin.
  assert (Harb : forallb is_mindmap (a ++ r :: b) = true).
  { rewrite forallb_app in Hab |- *. simpl.
    apply andb_prop in Hab as [-> ->]. rewrite Hr. reflexivity. }
  destruct (run_well_formed ms (a ++ b) Hms Hab) as [-> ->].
  destruct (run_well_formed ms (a ++ r :: b) Hms Harb) as [-> ->].
  assert (E : missing_ids ms (a ++ r :: b) = missing_ids ms (a ++ b)).
  { apply missing_ids_ext. intros k Hk. rewrite referenced_insert.
    destruct (refers_to k r) eqn:E; [|reflexivity].
    simpl. symmetry. auto. }
  rewrite E. split; [reflexivity|]. do 2 eexists. split; [reflexivity|].
  do 3 f_equal. rewrite !length_app. simpl. lia.
Qed.

(** ** The local variables at the end of a run *)

(** The set at the end of a call is the set as the first loop left it. *)
Lemma check_mindmaps_reference_set s :
  mindmap_module_ids (snd (check_mindmaps s)) =
  mindmap_module_ids (snd (bind load_inputs (fun _ => build_reference_set) s)).
Proof.
  unfold check_mindmaps, try_except, body, bind.
  destruct (load_inputs s) as [[[]|e] s1];
    [|rewrite handler_spec; reflexivity].
  destruct (build_reference_set s1) as [[[]|e] s2];
    [|rewrite handler_spec; reflexivity].
  pose proof (report_steps_ids s2) as H.
  destruct (report_steps s2) as [[[]|e] s3];
    [exact H | rewrite handler_spec; exact H].
Qed.

Lemma built_reference_set s :
  mindmap_module_ids (snd (bind load_inputs (fun _ => build_reference_set) s)) =
    match files s "seed/modules.json", files s "seed/mindmaps.json" with
    | Loaded _, Loaded mms =>
        Some match Py.iter mms with
             | Ok items => snd (collect_ids items [])
             | Raise _ => []
             end
    | _, _ => mindmap_module_ids s
    end.
Proof.
  unfold bind. rewrite load_inputs_spec.
  destruct (files s "seed/modules.json") as [ms|]; [|reflexivity].
  destruct (files s "seed/mindmaps.json") as [mms|]; [|reflexivity].
  rewrite (build_reference_set_spec _ mms) by reflexivity.
  destruct (Py.iter mms); reflexivity.
Qed.

(** Whatever the documents, the elements of the set are pairwise
    different. *)
Lemma run_reference_set_distinct fs ids :
  mindmap_module_ids (run fs) = Some ids -> distinct ids.
Proof.
  unfold run. rewrite check_mindmaps_reference_set, built_reference_set.
  simpl. destruct (fs "seed/modules.json"); [|discriminate].
  destruct (fs "seed/mindmaps.json") as [mms|]; [|discriminate].
  intros [= <-]. destruct (Py.iter mms) as [items|].
  - apply distinct_collect_ids. constructor.
  - constructor.
Qed.

Lemma run_reference_set_documents ms mms :
  mindmap_module_ids (run (documents ms mms)) = Some (snd (collect_ids mms [])).
Proof.
  unfold run. rewrite check_mindmaps_reference_set, built_reference_set.
  reflexivity.
Qed.

(** The documents in memory at the end of a call are the loaded ones. *)
Lemma check_mindmaps_inputs s :
  modules (snd (check_mindmaps s)) =
    match files s "seed/modules.json" with
    | Loaded ms => Some ms
    | Unreadable _ => modules s
    end
  /\ mindmaps (snd (check_mindmaps s)) =
    match files s "seed/modules.json", files s "seed/mindmaps.json" with
    | Loaded _, Loaded mms => Some mms
    | _, _ => mindmaps s
    end.
Proof.
  unfold check_mindmaps, try_except, body, bind.
  rewrite load_inputs_spec.
  destruct (files s "seed/modules.json") as [ms|];
    [|rewrite handler_spec; split; reflexivity].
  destruct (files s "seed/mindmaps.json") as [mms|];
    [|rewrite handler_spec; split; reflexivity].
  set (s1 := with_inputs (Some ms) (Some mms) s).
  pose proof (after_load_modules s1) as Hms.
  pose proof (after_load_mindmaps s1) as Hmms.
  unfold bind in Hms, Hmms.
  destruct (build_reference_set s1) as [[[]|e] s2].
  - destruct (report_steps s2) as [[[]|e] s3];
      [|rewrite handler_spec]; simpl in *; auto.
  - rewrite handler_spec. simpl in *; auto.
Qed.

(** How the first two blocks end. *)
Lemma built_result s :
  fst (bind load_inputs (fun _ => build_reference_set) s) =
    match files s "seed/modules.json", files s "seed/mindmaps.json" with
    | Unreadable msg, _ => Raise (LoadError msg)
    | Loaded _, Unreadable msg => Raise (LoadError msg)
    | Loaded _, Loaded mms =>
        match Py.iter mms with
        | Ok items => fst (collect_ids items [])
        | Raise e => Raise e
        end
    end.
Proof.
  unfold bind. rewrite load_inputs_spec.
  destruct (files s "seed/modules.json") as [ms|]; [|reflexivity].
  destruct (files s "seed/mindmaps.json") as [mms|]; [|reflexivity].
  rewrite (build_reference_set_spec _ mms) by reflexivity.
  destruct (Py.iter mms); reflexivity.
Qed.

(** ** Failures *)




Lemma scan_missing_result ids items acc :
  fst (scan_missing ids items acc) = Ok tt \/
  exists e, fst (scan_missing ids items acc) = Raise e.
Proof. destruct (scan_missing ids items acc) as [[[]|e] l]; simpl; eauto. Qed.







(** Records without a reference change the second count and nothing
    else of what the [try] block does. *)
Lemma outcome_without_none a mms :
  let kept := filter (fun mm => negb (no_reference mm)) mms in
  fst (outcome a (Loaded (JArr mms))) = fst (outcome a (Loaded (JArr kept)))
  /\ (snd (outcome a (Loaded (JArr mms))) =
        snd (outcome a (Loaded (JArr kept)))
      \/ exists first rest,
           snd (outcome a (Loaded (JArr mms))) =
             first :: mindmaps_line (Z.of_nat (List.length mms)) :: rest /\
           snd (outcome a (Loaded (JArr kept))) =
             first :: mindmaps_line (Z.of_nat (List.length kept)) :: rest).
Proof.
  intros kept. unfold outcome, progress_of.
  destruct a as [ms|]; [|auto]. simpl Py.iter. cbv iota beta.
  assert (E : collect_ids kept [] = collect_ids mms [])
    by apply collect_ids_without_none.
  rewrite E. clear E.
  destruct (collect_ids mms []) as [[[]|] ids]; [|auto].
  destruct (Py.len ms) as [n|]; [|auto].
  destruct (Py.iter ms) as [mitems|];
    [|simpl; split; [reflexivity | right; eauto]].
  destruct (scan_missing ids (Py.enumerate mitems 1) []) as [[[]|] l];
    [|simpl; split; [reflexivity | right; eauto]].
  destruct l; simpl; split; try reflexivity; right; eauto.
Qed.



(* ================================================================= *)
(** * The properties of the report *)

(** C4 (P1, counts): on well-formed documents the first line printed is
    the count of modules, the length of the modules list, and the second
    is the count of mindmaps, the length of the mindmaps list. *)
Theorem C4_counts_first ms mms :
  forallb is_module ms = true ->
  forallb is_mindmap mms = true ->
  exists rest,
    stdout (run (documents ms mms)) =
      modules_line (Z.of_nat (List.length ms))
      :: mindmaps_line (Z.of_nat (List.length mms))
      :: rest.
Proof.
  intros Hms Hmms. destruct (run_well_formed ms mms Hms Hmms) as [_ ->].
  eexists. reflexivity.
Qed.

(** C7 (P5, no-missing message): on well-formed documents, when every
    position from 1 to the number of modules is in the set of referenced
    ids, also when there is no module at all, the output is the two
    counts followed by the all-covered line, with no entry. *)
Theorem C7_all_covered ms mms ids :
  forallb is_module ms = true ->
  forallb is_mindmap mms = true ->
  mindmap_module_ids (run (documents ms mms)) = Some ids ->
  (forall k, 1 <= k <= Z.of_nat (List.length ms) ->
             Py.set_contains (JInt k) ids = true) ->
  stdout (run (documents ms mms)) =
    [modules_line (Z.of_nat (List.length ms));
     mindmaps_line (Z.of_nat (List.length mms));
     all_covered].
Proof.
  intros Hms Hmms Hids Hall.
  destruct (run_well_formed ms mms Hms Hmms) as [_ ->].
  rewrite run_reference_set_documents in Hids. injection Hids as <-.
  destruct (collect_ids_mindmaps mms [] Hmms) as [_ Hc].
  assert (E : missing_ids ms mms = []).
  { destruct (missing_ids ms mms) as [|k rest] eqn:E; [reflexivity|].
    assert (Hin : In k (missing_ids ms mms)) by (rewrite E; left; reflexivity).
    apply missing_ids_spec in Hin as [Hk Hr].
    specialize (Hall k Hk). rewrite Hc, Hr in Hall. discriminate. }
  rewrite E. reflexivity.
Qed.

(** C8 (set semantics): on well-formed documents, a second copy of a
    mindmap record changes the count of mindmaps, which grows by one, and
    no other line; the elements of the set of referenced ids are pairwise
    different; and the set at the end of the run is the set as the loop
    over the mindmaps left it. *)
Theorem C8_reference_set_semantics ms a b r :
  forallb is_module ms = true ->
  forallb is_mindmap (a ++ b) = true ->
  In r (a ++ b) ->
  (exists first rest,
     stdout (run (documents ms (a ++ b))) =
       first :: mindmaps_line (Z.of_nat (List.length (a ++ b))) :: rest /\
     stdout (run (documents ms (a ++ r :: b))) =
       first :: mindmaps_line (Z.of_nat (List.length (a ++ b)) + 1) :: rest)
  /\ (exists ids,
        mindmap_module_ids (run (documents ms (a ++ r :: b))) = Some ids /\
        distinct ids)
  /\ mindmap_module_ids (run (documents ms (a ++ r :: b))) =
       mindmap_module_ids
         (snd (bind load_inputs (fun _ => build_reference_set)
                 (initial (documents ms (a ++ r :: b))))).
Proof.
  intros Hms Hab Hin. split; [|split].
  - apply insert_record; try assumption.
    + rewrite forallb_forall in Hab. auto.
    + intros k _ Hk. apply existsb_exists. eauto.
  - eexists. split; [apply run_reference_set_documents|].
    apply distinct_collect_ids. constructor.
  - apply check_mindmaps_reference_set.
Qed.

(** C5 (P3, null tolerance), amended: with well-formed mindmaps, the
    records whose [module_id] is absent or null add nothing to the set of
    referenced ids and raise no error; the run ends as it does without
    them, and its output is the output without them except for the count
    of mindmaps, which counts them. *)
Theorem C5_null_references_ignored (a : load_result) mms :
  forallb is_mindmap mms = true ->
  let kept := filter (fun mm => negb (no_reference mm)) mms in
  let fs := two_files a (Loaded (JArr mms)) in
  let fs' := two_files a (Loaded (JArr kept)) in
  mindmap_module_ids (run fs) = mindmap_module_ids (run fs')
  /\ (forall ms, a = Loaded ms ->
        fst (bind load_inputs (fun _ => build_reference_set) (initial fs))
        = Ok tt)
  /\ fst (body (initial fs)) = fst (body (initial fs'))
  /\ (stdout (run fs) = stdout (run fs')
      \/ exists first rest,
           stdout (run fs) =
             first :: mindmaps_line (Z.of_nat (List.length mms)) :: rest /\
           stdout (run fs') =
             first :: mindmaps_line (Z.of_nat (List.length kept)) :: rest).
Proof.
  intros Hmms kept fs fs'. split; [|split; [|split]].
  - unfold run. rewrite !check_mindmaps_reference_set, !built_reference_set.
    simpl. destruct a; [|reflexivity]. simpl.
    unfold kept. rewrite collect_ids_without_none. reflexivity.
  - intros ms ->. rewrite built_result. simpl.
    apply (collect_ids_mindmaps mms [] Hmms).
  - rewrite !run_body. apply (outcome_without_none a mms).
  - rewrite !run_stdout. unfold output.
    change (fs "seed/modules.json") with a.
    change (fs' "seed/modules.json") with a.
    change (fs "seed/mindmaps.json") with (Loaded (JArr mms)).
    change (fs' "seed/mindmaps.json") with (Loaded (JArr kept)).
    destruct (outcome_without_none a mms) as [Hr Hl]. fold kept in Hr, Hl.
    destruct (outcome a (Loaded (JArr mms))) as [r l].
    destruct (outcome a (Loaded (JArr kept))) as [r' l'].
    simpl in Hr, Hl. subst r'.
    destruct Hl as [->|[first [rest [-> ->]]]].
    + left. reflexivity.
    + right. destruct r as [[]|e]; simpl; eauto.
Qed.

(** C9 (read-only run): whatever the state it starts in, a call of
    [check_mindmaps] returns normally, leaves every file as it was,
    leaves in [modules] and [mindmaps] exactly the documents that it
    loaded, and only appends to standard output. *)
Theorem C9_read_only s :
  fst (check_mindmaps s) = Ok tt
  /\ files (snd (check_mindmaps s)) = files s
  /\ modules (snd (check_mindmaps s)) =
       match files s "seed/modules.json" with
       | Loaded ms => Some ms
       | Unreadable _ => modules s
       end
  /\ mindmaps (snd (check_mindmaps s)) =
       match files s "seed/modules.json", files s "seed/mindmaps.json" with
       | Loaded _, Loaded mms => Some mms
       | _, _ => mindmaps s
       end
  /\ exists lines, stdout (snd (check_mindmaps s)) = stdout s ++ lines.
Proof.
  split; [apply check_mindmaps_returns|].
  split; [apply check_mindmaps_files|].
  destruct (check_mindmaps_inputs s) as [Hms Hmms].
  split; [exact Hms|]. split; [exact Hmms|].
  eexists. apply check_mindmaps_stdout.
Qed.









(** C10 (dangling references): on well-formed documents, one more
    mindmap record whose [module_id] is an integer below 1 or above the
    number of modules raises no error, so that the set is built and the
    run ends as it does without the record, and changes the count of
    mindmaps, which grows by one, and no other line. *)
Theorem C10_dangling_reference_ignored ms a b r z :
  forallb is_module ms = true ->
  forallb is_mindmap (a ++ b) = true ->
  Py.get r "module_id" = Ok (JInt z) ->
  z < 1 \/ Z.of_nat (List.length ms) < z ->
  fst (bind load_inputs (fun _ => build_reference_set)
         (initial (documents ms (a ++ r :: b)))) = Ok tt /\
  fst (body (initial (documents ms (a ++ r :: b)))) =
  fst (body (initial (documents ms (a ++ b)))) /\
  exists first rest,
    stdout (run (documents ms (a ++ b))) =
      first :: mindmaps_line (Z.of_nat (List.length (a ++ b))) :: rest /\
    stdout (run (documents ms (a ++ r :: b))) =
      first :: mindmaps_line (Z.of_nat (List.length (a ++ b)) + 1) :: rest.
Proof.
  intros Hms Hab Hr Hz.
  assert (Hrm : is_mindmap r = true).
  { destruct r as [| | | | | |d]; try discriminate. simpl in Hr |- *.
    destruct (Py.dict_lookup _ d) as [x|]; [|discriminate].
    injection Hr as ->. reflexivity. }
  split.
  - rewrite built_result. simpl.
    apply (collect_ids_mindmaps (a ++ r :: b) []).
    rewrite forallb_app in Hab |- *. simpl.
    apply andb_prop in Hab as [-> ->]. rewrite Hrm. reflexivity.
  - apply insert_record; try assumption.
    intros k Hk. unfold refers_to. rewrite Hr. intros E.
    apply Z.eqb_eq in E. lia.
Qed.





(* ================================================================= *)
(** * Further properties of the script *)

(** ** Failures before the counts *)

(** X2 (unreadable file): when the modules cannot be loaded, or the
    modules are loaded and the mindmaps cannot, the output is the single
    error line of that failure; the modules are loaded first, so their
    failure is the one reported whatever the state of the mindmaps. *)
Theorem X2_load_failure fs msg :
  fs "seed/modules.json" = Unreadable msg \/
  (exists ms, fs "seed/modules.json" = Loaded ms /\
              fs "seed/mindmaps.json" = Unreadable msg) ->
  stdout (run fs) = [error_line (LoadError msg)].
Proof.
  rewrite run_stdout. unfold output, outcome, progress_of.
  intros [->|[ms [-> ->]]]; reflexivity.
Qed.

(** X3 (mindmaps with no items): when both documents are loaded and the
    mindmaps are [null], a boolean or a number, the output is the single
    error line of the failed iteration, whatever the modules are. *)
Theorem X3_scalar_mindmaps fs ms v :
  fs "seed/modules.json" = Loaded ms ->
  fs "seed/mindmaps.json" = Loaded v ->
  is_scalar v = true ->
  stdout (run fs) = [error_line (NotIterable v)].
Proof.
  intros Hms Hv Hs. rewrite run_stdout, Hms, Hv. unfold output, outcome, progress_of.
  destruct v; try discriminate; reflexivity.
Qed.

(** X4 (modules with no length): when the modules are [null], a boolean
    or a number and the mindmaps are a well-formed list, the output is the
    single error line of the failed [len]: the first count is not
    printed. *)
Theorem X4_scalar_modules fs v mms :
  fs "seed/modules.json" = Loaded v ->
  fs "seed/mindmaps.json" = Loaded (JArr mms) ->
  is_scalar v = true ->
  forallb is_mindmap mms = true ->
  stdout (run fs) = [error_line (NoLen v)].
Proof.
  intros Hv Hmms Hs Hwf. rewrite run_stdout, Hv, Hmms.
  unfold output, outcome, progress_of. simpl Py.iter. cbv iota beta.
  destruct (collect_ids_mindmaps mms [] Hwf) as [Hr _].
  destruct (collect_ids mms []) as [r ids]; simpl in Hr; subst r.
  destruct v; try discriminate; reflexivity.
Qed.

(** The first loop stops at the first record that it cannot take. *)
Lemma collect_ids_stops pre bad post e :
  forallb is_mindmap pre = true ->
  (forall ids, add_reference bad ids = Raise e) ->
  fst (collect_ids (pre ++ bad :: post) []) = Raise e.
Proof.
  intros Hpre Hbad. generalize (@nil json) as ids.
  induction pre as [|mm pre IH]; intros ids; simpl.
  - rewrite Hbad. reflexivity.
  - simpl in Hpre. apply andb_prop in Hpre as [Hmm Hpre].
    destruct (add_reference_mindmap mm ids Hmm) as [ids' [-> _]].
    apply IH, Hpre.
Qed.

(** X5 (first bad record): when the mindmaps start with well-formed
    records followed by an item that is no dict, or by a dict whose
    [module_id] is a list or a dict, the output is the single error line
    of that item, whatever follows it and whatever the modules are. *)
Theorem X5_first_bad_record fs ms pre bad post e :
  fs "seed/modules.json" = Loaded ms ->
  fs "seed/mindmaps.json" = Loaded (JArr (pre ++ bad :: post)) ->
  forallb is_mindmap pre = true ->
  Py.get bad "module_id" = Raise e \/
  (exists x, Py.get bad "module_id" = Ok x /\ Py.hashable x = false /\
             e = Unhashable x) ->
  stdout (run fs) = [error_line e].
Proof.
  intros Hms Hmms Hpre Hbad.
  assert (H : forall ids, add_reference bad ids = Raise e).
  { intros ids. unfold add_reference.
    destruct Hbad as [->|[x [Hg [Hx ->]]]]; [reflexivity|].
    rewrite Hg. destruct bad as [| | | | | |d]; try discriminate.
    simpl in Hg |- *.
    destruct (Py.dict_lookup _ d) as [y|].
    - injection Hg as ->. unfold Py.set_add. rewrite Hx.
      destruct x; try discriminate; reflexivity.
    - injection Hg as <-. discriminate. }
  pose proof (collect_ids_stops pre bad post e Hpre H) as Hc.
  rewrite run_stdout, Hms, Hmms. unfold output, outcome, progress_of.
  simpl Py.iter. cbv iota beta.
  destruct (collect_ids (pre ++ bad :: post) []) as [r ids].
  simpl in Hc. subst r. reflexivity.
Qed.

(** ** The whole report *)


(** ** Modules that are never looked at *)

Lemma scan_missing_covered ids items : forall acc,
  (forall im, In im items -> Py.set_contains (JInt (fst im)) ids = true) ->
  scan_missing ids items acc = (Ok tt, acc).
Proof.
  induction items as [|im rest IH]; intros acc H; simpl; [reflexivity|].
  unfold add_missing. rewrite (H im) by (left; reflexivity). simpl.
  apply IH. intros im' Hin. apply H. right. exact Hin.
Qed.

(** X6 (covered items are not inspected): when every position of the
    modules document is referred to by a well-formed mindmap, the run
    ends normally with the two counts and the all-covered line, whatever
    the items of the modules document are: records with or without a
    title, values that are no records, the keys of a dict or the
    characters of a text. *)
Theorem X6_covered_items_not_inspected fs v items mms :
  fs "seed/modules.json" = Loaded v ->
  Py.iter v = Ok items ->
  fs "seed/mindmaps.json" = Loaded (JArr mms) ->
  forallb is_mindmap mms = true ->
  (forall k, 1 <= k <= Z.of_nat (List.length items) ->
     exists mm, In mm mms /\ Py.get mm "module_id" = Ok (JInt k)) ->
  fst (body (initial fs)) = Ok tt /\
  stdout (run fs) =
    [modules_line (Z.of_nat (List.length items));
     mindmaps_line (Z.of_nat (List.length mms));
     all_covered].
Proof.
  intros Hv Hit Hmms Hwf Hall. rewrite run_body, run_stdout, Hv, Hmms.
  unfold output, outcome, progress_of. simpl Py.iter. cbv iota beta.
  destruct (collect_ids_mindmaps mms [] Hwf) as [Hr Hc].
  destruct (collect_ids mms []) as [r ids]; simpl in Hr, Hc; subst r.
  rewrite (len_of_iterable _ _ Hit), Hit. simpl Py.len. cbv iota beta.
  rewrite (scan_missing_covered ids (Py.enumerate items 1) []).
  - split; reflexivity.
  - intros [k m] Hin. simpl. rewrite Hc. simpl.
    apply referenced_spec, Hall.
    pose proof (enumerate_spec items 1) as H. rewrite Forall_forall in H.
    apply H in Hin. cbn [fst snd] in Hin. lia.
Qed.

(** ** References that are no integers *)









(** ** Changes of the documents *)

Lemma referenced_permutation mms mms' k :
  Permutation mms mms' -> referenced mms k = referenced mms' k.
Proof.
  unfold referenced. induction 1 as [|x l l' _ IH|x y l|l l' l'' _ IH1 _ IH2];
    simpl.
  - reflexivity.
  - rewrite IH. reflexivity.
  - destruct (refers_to k x), (refers_to k y); reflexivity.
  - congruence.
Qed.

Lemma is_mindmap_permutation mms mms' :
  Permutation mms mms' ->
  forallb is_mindmap mms = true -> forallb is_mindmap mms' = true.
Proof.
  intros Hp. rewrite !forallb_forall. intros H mm Hin.
  apply H. eapply Permutation_in; [apply Permutation_sym|]; eassumption.
Qed.

(** X8 (order of the mindmaps): on well-formed documents the output does
    not depend on the order of the mindmap records. *)
Theorem X8_mindmap_order_irrelevant ms mms mms' :
  forallb is_module ms = true ->
  forallb is_mindmap mms = true ->
  Permutation mms mms' ->
  stdout (run (documents ms mms')) = stdout (run (documents ms mms)).
Proof.
  intros Hms Hmms Hp.
  destruct (run_well_formed ms mms Hms Hmms) as [_ ->].
  destruct (run_well_formed ms mms' Hms (is_mindmap_permutation _ _ Hp Hmms))
    as [_ ->].
  rewrite (Permutation_length Hp).
  rewrite (missing_ids_ext ms mms' mms); [reflexivity|].
  intros k _. symmetry. apply referenced_permutation, Hp.
Qed.



(** X10 (modules added at the end): on well-formed documents, modules
    added after the existing ones leave the position, the title and the
    coverage of the existing ones as they were: the entry of an existing
    position is printed with the longer list if and only if it is
    printed with the shorter one. *)
Theorem X10_appended_modules_keep_positions ms more mms k :
  forallb is_module (ms ++ more) = true ->
  forallb is_mindmap mms = true ->
  1 <= k <= Z.of_nat (List.length ms) ->
  module_at (ms ++ more) k = module_at ms k /\
  (In (entry_line k (title_of (module_at ms k)))
      (stdout (run (documents (ms ++ more) mms)))
   <->
   In (entry_line k (title_of (module_at ms k)))
      (stdout (run (documents ms mms)))).
Proof.
  intros Hall Hmms Hk.
  assert (Hat : forall j, 1 <= j <= k ->
            module_at (ms ++ more) j = module_at ms j)
    by (intros j Hj; unfold module_at; apply app_nth1; lia).
  split; [apply Hat; lia|].
  assert (Hms : forallb is_module ms = true)
    by (rewrite forallb_app in Hall; apply andb_prop in Hall; tauto).
  destruct (run_well_formed ms mms Hms Hmms) as [_ ->].
  destruct (run_well_formed (ms ++ more) mms Hall Hmms) as [_ ->].
  rewrite (in_report_lines (fun j => title_of (module_at ms j)))
    by apply missing_ids_ascending.
  rewrite (in_report_lines (fun j => title_of (module_at (ms ++ more) j)))
    by apply missing_ids_ascending.
  rewrite !missing_ids_spec, length_app.
  split; intros [[Hr Hn] [Ht Hw]].
  - split; [split; [lia | exact Hn]|]. split; [reflexivity|].
    intros j Hj Hle. apply missing_ids_spec in Hj as [Hj Hnj].
    rewrite <- (Hat j) by lia. apply Hw; [|exact Hle].
    apply missing_ids_spec. rewrite length_app. split; [lia | exact Hnj].
  - split; [split; [lia | exact Hn]|].
    split; [rewrite Hat by lia; reflexivity|].
    intros j Hj Hle. apply missing_ids_spec in Hj as [Hj Hnj].
    rewrite (Hat j) by lia. apply Hw; [|exact Hle].
    apply missing_ids_spec. split; [lia | exact Hnj].
Qed.

(** ** The error line *)

Lemma entry_line_no_error k t : is_error_line (entry_line k t) = false.
Proof. reflexivity. Qed.

Lemma scan_missing_no_error ids items : forall acc,
  Forall (fun l => is_error_line l = false) acc ->
  Forall (fun l => is_error_line l = false) (snd (scan_missing ids items acc)).
Proof.
  induction items as [|im rest IH]; intros acc Hacc; simpl; [exact Hacc|].
  unfold add_missing. destruct (negb _); [|apply IH, Hacc].
  destruct (Py.getitem (snd im) "title") as [t|e]; [|exact Hacc].
  apply IH. apply Forall_app. split; [exact Hacc|].
  constructor; [apply entry_line_no_error | constructor].
Qed.

Lemma write_all_no_error lines :
  Forall (fun l => is_error_line l = false) lines ->
  Forall (fun l => is_error_line l = false) (snd (write_all lines)).
Proof.
  induction lines as [|l rest IH]; simpl; intros H; [constructor|].
  inversion H; subst.
  destruct (Py.encodable l); simpl; constructor; auto.
Qed.

(** No text that the [try] block writes starts with [Error: ]. *)
Lemma outcome_no_error a b :
  Forall (fun l => is_error_line l = false) (snd (outcome a b)).
Proof.
  unfold outcome, progress_of.
  destruct a as [ms|]; [|constructor].
  destruct b as [mms|]; [|constructor].
  destruct (Py.iter mms) as [items|]; [|constructor].
  destruct (collect_ids items []) as [[[]|] ids]; [|constructor].
  destruct (Py.len ms) as [n|]; [|constructor].
  destruct (Py.iter ms) as [mitems|]; [|repeat constructor].
  pose proof (scan_missing_no_error ids (Py.enumerate mitems 1) []
                (Forall_nil _)) as H.
  destruct (scan_missing ids (Py.enumerate mitems 1) []) as [[[]|] missing];
    simpl in H; [|repeat constructor].
  destruct missing as [|l rest]; [repeat constructor|].
  cbv beta iota. cbn [snd].
  constructor; [reflexivity|]. constructor; [reflexivity|].
  constructor; [reflexivity|].
  apply (write_all_no_error (l :: rest)), H.
Qed.

(** X11 (one error text, last, exactly on failure): when the [try] block
    ends normally none of the texts that the calls of [print] have
    written starts with [Error: ]; when it fails, the text written last
    is [Error: ] followed by the description of that failure, and none of
    the texts written before it starts with [Error: ]. *)
Theorem X11_error_line_iff_failure fs :
  match fst (body (initial fs)) with
  | Ok _ => Forall (fun l => is_error_line l = false) (stdout (run fs))
  | Raise e =>
      is_error_line (error_line e) = true /\
      exists lines,
        stdout (run fs) = lines ++ [error_line e] /\
        Forall (fun l => is_error_line l = false) lines
  end.
Proof.
  rewrite run_body, run_stdout. unfold output.
  pose proof (outcome_no_error (fs "seed/modules.json")
                (fs "seed/mindmaps.json")) as H.
  destruct (outcome _ _) as [[[]|e] lines]; simpl in H |- *.
  - exact H.
  - split; [reflexivity | exists lines; auto].
Qed.

(** ** The first module whose title cannot be read *)

Lemma scan_missing_stops ids pre bad post e : forall start acc,
  forallb is_module pre = true ->
  Py.set_contains (JInt (start + Z.of_nat (List.length pre))) ids = false ->
  Py.getitem bad "title" = Raise e ->
  fst (scan_missing ids (Py.enumerate (pre ++ bad :: post) start) acc)
  = Raise e.
Proof.
  induction pre as [|m pre IH]; intros start acc Hpre Hn Hg; simpl.
  - simpl in Hn. rewrite Z.add_0_r in Hn.
    unfold add_missing. simpl. rewrite Hn, Hg. reflexivity.
  - simpl in Hpre. apply andb_prop in Hpre as [Hm Hpre].
    rewrite (add_missing_module ids (start, m) acc Hm).
    apply IH; try assumption.
    replace (start + 1 + Z.of_nat (List.length pre))
      with (start + Z.of_nat (List.length (m :: pre)));
      [exact Hn | simpl List.length; lia].
Qed.

(** X12 (first unreadable title): when the modules start with
    well-formed records followed by an item that no well-formed mindmap
    refers to and whose title cannot be read, the run fails with that
    item's error and the output is the two counts and the error line:
    the entries collected for earlier positions are not printed and the
    later items are not looked at. *)
Theorem X12_first_unreadable_title fs pre bad post mms e :
  fs "seed/modules.json" = Loaded (JArr (pre ++ bad :: post)) ->
  fs "seed/mindmaps.json" = Loaded (JArr mms) ->
  forallb is_module pre = true ->
  forallb is_mindmap mms = true ->
  Py.getitem bad "title" = Raise e ->
  (forall mm, In mm mms ->
     Py.get mm "module_id" <> Ok (JInt (Z.of_nat (List.length pre) + 1))) ->
  fst (body (initial fs)) = Raise e /\
  stdout (run fs) =
    [modules_line (Z.of_nat (List.length (pre ++ bad :: post)));
     mindmaps_line (Z.of_nat (List.length mms));
     error_line e].
Proof.
  intros Hms Hmms Hpre Hwf Hg Hn. rewrite run_body, run_stdout, Hms, Hmms.
  unfold output, outcome, progress_of. simpl Py.iter. simpl Py.len. cbv iota beta.
  destruct (collect_ids_mindmaps mms [] Hwf) as [Hr Hc].
  destruct (collect_ids mms []) as [r ids]; simpl in Hr, Hc; subst r.
  apply (proj2 (not_referenced_spec mms _)) in Hn.
  pose proof (scan_missing_stops ids pre bad post e 1 [] Hpre) as H.
  rewrite Hc, Z.add_comm, Hn in H. specialize (H eq_refl Hg).
  destruct (scan_missing ids (Py.enumerate (pre ++ bad :: post) 1) [])
    as [r l]. simpl in H. subst r. split; reflexivity.
Qed.

End Script.

(* ================================================================= *)
(** * Sample runs *)

(** The five scenarios of the specification, run with the sample
    interpreter. *)
Example scenario_one_missing :
  stdout (run sample_format sample_exn_text
            (documents modules_abc [mindmap_record 1; mindmap_record 3])) =
    [txt "Total Modules: 3"; txt "Total Mindmaps: 2"; missing_header;
     txt "ID 2: B"].
Proof. reflexivity. Qed.

Example scenario_duplicate_reference :
  stdout (run sample_format sample_exn_text
            (documents [module_record "A"] [mindmap_record 1; mindmap_record 1])) =
    [txt "Total Modules: 1"; txt "Total Mindmaps: 2"; all_covered].
Proof. reflexivity. Qed.

Example scenario_empty :
  stdout (run sample_format sample_exn_text (documents [] [])) =
    [txt "Total Modules: 0"; txt "Total Mindmaps: 0"; all_covered].
Proof. reflexivity. Qed.

Example scenario_null_reference :
  stdout (run sample_format sample_exn_text
            (documents [module_record "A"; module_record "B"] [null_mindmap])) =
    [txt "Total Modules: 2"; txt "Total Mindmaps: 1"; missing_header;
     txt "ID 1: A"; txt "ID 2: B"].
Proof. reflexivity. Qed.

Example scenario_modules_file_missing :
  stdout (run sample_format sample_exn_text
            (two_files (Unreadable "No such file or directory")
                       (Loaded (JArr [])))) =
    [txt "Error: No such file or directory"].
Proof. reflexivity. Qed.

(** A title that is a lone surrogate: the entry before it is written,
    its own entry is not, and the handler's line ends the output. *)
Example unwritable_title :
  stdout (run sample_format sample_exn_text
            (documents [module_record "A"; surrogate_record] [])) =
    [txt "Total Modules: 2"; txt "Total Mindmaps: 0"; missing_header;
     txt "ID 1: A"; txt "Error: surrogates not allowed"].
Proof. reflexivity. Qed.

(** A top level that is no list but can be iterated and measured is
    reported on, not refused: an empty dict and an empty text. *)
Example top_level_not_a_list :
  stdout (run sample_format sample_exn_text
            (two_files (Loaded (JObj [])) (Loaded (JStr [])))) =
    [txt "Total Modules: 0"; txt "Total Mindmaps: 0"; all_covered].
Proof. reflexivity. Qed.

(** The length of a text is the number of its code points: the euro
    sign is one character. *)
Example length_of_text : Py.len (JStr [8364%N]) = Ok 1.
Proof. reflexivity. Qed.

(** [true] and [1.0] are equal to [1] for the set. *)
Example bool_and_float_references :
  stdout (run sample_format sample_exn_text
            (documents [module_record "A"; module_record "B"]
               [JObj [(txt "module_id", JBool true)];
                JObj [(txt "module_id", JFloat (S754_finite false 1 1))]])) =
    [txt "Total Modules: 2"; txt "Total Mindmaps: 2"; all_covered].
Proof. reflexivity. Qed.

(* ================================================================= *)
(** * Instances of the theorems *)

Lemma C4_counts_first_witness :
  forallb is_module modules_abc = true /\
  forallb is_mindmap [mindmap_record 1; mindmap_record 3] = true /\
  exists rest,
    stdout (run sample_format sample_exn_text
              (documents modules_abc [mindmap_record 1; mindmap_record 3])) =
      modules_line 3 :: mindmaps_line 2 :: rest.
Proof.
  split; [reflexivity|]. split; [reflexivity|].
  apply (C4_counts_first sample_format sample_exn_text modules_abc
           [mindmap_record 1; mindmap_record 3]); reflexivity.
Defined.

Lemma C7_all_covered_witness :
  stdout (run sample_format sample_exn_text
            (documents [module_record "A"] [mindmap_record 1; mindmap_record 1])) =
    [modules_line 1; mindmaps_line 2; all_covered].
Proof.
  apply (C7_all_covered sample_format sample_exn_text [module_record "A"]
           [mindmap_record 1; mindmap_record 1] [JInt 1]);
    [reflexivity | reflexivity | reflexivity |].
  intros k Hk. simpl in Hk. assert (k = 1) as -> by lia. reflexivity.
Defined.

Lemma C8_reference_set_semantics_witness :
  (exists first rest,
     stdout (run sample_format sample_exn_text
               (documents [module_record "A"] ([mindmap_record 1] ++ []))) =
       first :: mindmaps_line (Z.of_nat (List.length ([mindmap_record 1] ++ [])))
             :: rest /\
     stdout (run sample_format sample_exn_text
               (documents [module_record "A"]
                  ([mindmap_record 1] ++ mindmap_record 1 :: []))) =
       first :: mindmaps_line (Z.of_nat (List.length ([mindmap_record 1] ++ [])) + 1)
             :: rest)
  /\ (exists ids,
        mindmap_module_ids
          (run sample_format sample_exn_text
             (documents [module_record "A"]
                ([mindmap_record 1] ++ mindmap_record 1 :: []))) = Some ids /\
        distinct ids)
  /\ mindmap_module_ids
       (run sample_format sample_exn_text
          (documents [module_record "A"]
             ([mindmap_record 1] ++ mindmap_record 1 :: []))) =
     mindmap_module_ids
       (snd (bind load_inputs (fun _ => build_reference_set)
               (initial (documents [module_record "A"]
                           ([mindmap_record 1] ++ mindmap_record 1 :: []))))).
Proof.
  apply (C8_reference_set_semantics sample_format sample_exn_text
           [module_record "A"] [mindmap_record 1] [] (mindmap_record 1));
    [reflexivity | reflexivity | left; reflexivity].
Defined.

Lemma C5_null_references_ignored_witness :
  let a := Loaded (JArr [module_record "A"; module_record "B"]) in
  let mms := [null_mindmap; mindmap_record 2; empty_record] in
  let kept := filter (fun mm => negb (no_reference mm)) mms in
  let fs := two_files a (Loaded (JArr mms)) in
  let fs' := two_files a (Loaded (JArr kept)) in
  mindmap_module_ids (run sample_format sample_exn_text fs) =
  mindmap_module_ids (run sample_format sample_exn_text fs')
  /\ (forall ms, a = Loaded ms ->
        fst (bind load_inputs (fun _ => build_reference_set) (initial fs))
        = Ok tt)
  /\ fst (body sample_format (initial fs)) = fst (body sample_format (initial fs'))
  /\ (stdout (run sample_format sample_exn_text fs) =
      stdout (run sample_format sample_exn_text fs')
      \/ exists first rest,
           stdout (run sample_format sample_exn_text fs) =
             first :: mindmaps_line (Z.of_nat (List.length mms)) :: rest /\
           stdout (run sample_format sample_exn_text fs') =
             first :: mindmaps_line (Z.of_nat (List.length kept)) :: rest).
Proof.
  apply (C5_null_references_ignored sample_format sample_exn_text
           (Loaded (JArr [module_record "A"; module_record "B"]))
           [null_mindmap; mindmap_record 2; empty_record]).
  reflexivity.
Defined.

Lemma X2_load_failure_witness :
  stdout (run sample_format sample_exn_text
            (two_files (Unreadable "no modules") (Unreadable "no mindmaps"))) =
    [error_line sample_exn_text (LoadError "no modules")].
Proof.
  apply (X2_load_failure sample_format sample_exn_text
           (two_files (Unreadable "no modules") (Unreadable "no mindmaps"))
           "no modules").
  left. reflexivity.
Defined.

Lemma X3_scalar_mindmaps_witness :
  stdout (run sample_format sample_exn_text
            (two_files (Loaded (JArr modules_abc)) (Loaded JNull))) =
    [error_line sample_exn_text (NotIterable JNull)].
Proof.
  apply (X3_scalar_mindmaps sample_format sample_exn_text
           (two_files (Loaded (JArr modules_abc)) (Loaded JNull))
           (JArr modules_abc) JNull); reflexivity.
Defined.

Lemma X4_scalar_modules_witness :
  stdout (run sample_format sample_exn_text
            (two_files (Loaded (JInt 5)) (Loaded (JArr [mindmap_record 1])))) =
    [error_line sample_exn_text (NoLen (JInt 5))].
Proof.
  apply (X4_scalar_modules sample_format sample_exn_text
           (two_files (Loaded (JInt 5)) (Loaded (JArr [mindmap_record 1])))
           (JInt 5) [mindmap_record 1]); reflexivity.
Defined.

Lemma X5_first_bad_record_witness :
  stdout (run sample_format sample_exn_text
            (two_files (Loaded (JArr modules_abc))
               (Loaded (JArr ([mindmap_record 1]
                              ++ JObj [(txt "module_id", JArr [])]
                              :: [JInt 3]))))) =
    [error_line sample_exn_text (Unhashable (JArr []))].
Proof.
  apply (X5_first_bad_record sample_format sample_exn_text
           (two_files (Loaded (JArr modules_abc))
              (Loaded (JArr ([mindmap_record 1]
                             ++ JObj [(txt "module_id", JArr [])]
                             :: [JInt 3]))))
           (JArr modules_abc) [mindmap_record 1]
           (JObj [(txt "module_id", JArr [])]) [JInt 3] (Unhashable (JArr [])));
    [reflexivity | reflexivity | reflexivity |].
  right. exists (JArr []). repeat split; reflexivity.
Defined.

Lemma X6_covered_items_not_inspected_witness :
  fst (body sample_format
         (initial (two_files (Loaded (JObj [(txt "a", JNull); (txt "b", JInt 7)]))
                             (Loaded (JArr [mindmap_record 2; mindmap_record 1])))))
  = Ok tt /\
  stdout (run sample_format sample_exn_text
            (two_files (Loaded (JObj [(txt "a", JNull); (txt "b", JInt 7)]))
                       (Loaded (JArr [mindmap_record 2; mindmap_record 1])))) =
    [modules_line (Z.of_nat (List.length [JStr (txt "a"); JStr (txt "b")]));
     mindmaps_line (Z.of_nat (List.length [mindmap_record 2; mindmap_record 1]));
     all_covered].
Proof.
  apply (X6_covered_items_not_inspected sample_format sample_exn_text
           (two_files (Loaded (JObj [(txt "a", JNull); (txt "b", JInt 7)]))
                      (Loaded (JArr [mindmap_record 2; mindmap_record 1])))
           (JObj [(txt "a", JNull); (txt "b", JInt 7)]) [JStr (txt "a"); JStr (txt "b")]
           [mindmap_record 2; mindmap_record 1]);
    [reflexivity | reflexivity | reflexivity | reflexivity |].
  intros k Hk. simpl in Hk.
  assert (k = 1 \/ k = 2) as [->| ->] by lia.
  - exists (mindmap_record 1). split; [right; left|]; reflexivity.
  - exists (mindmap_record 2). split; [left|]; reflexivity.
Defined.

Lemma X8_mindmap_order_irrelevant_witness :
  stdout (run sample_format sample_exn_text
            (documents modules_abc [mindmap_record 3; mindmap_record 1])) =
  stdout (run sample_format sample_exn_text
            (documents modules_abc [mindmap_record 1; mindmap_record 3])).
Proof.
  apply (X8_mindmap_order_irrelevant sample_format sample_exn_text modules_abc
           [mindmap_record 1; mindmap_record 3]
           [mindmap_record 3; mindmap_record 1]);
    [reflexivity | reflexivity | apply perm_swap].
Defined.

Lemma X10_appended_modules_keep_positions_witness :
  module_at ([module_record "A"] ++ [module_record "B"]) 1 =
  module_at [module_record "A"] 1 /\
  (In (entry_line 1 (title_of (module_at [module_record "A"] 1)))
      (stdout (run sample_format sample_exn_text
                 (documents ([module_record "A"] ++ [module_record "B"])
                            [mindmap_record 2])))
   <->
   In (entry_line 1 (title_of (module_at [module_record "A"] 1)))
      (stdout (run sample_format sample_exn_text
                 (documents [module_record "A"] [mindmap_record 2])))).
Proof.
  apply (X10_appended_modules_keep_positions sample_format sample_exn_text
           [module_record "A"] [module_record "B"] [mindmap_record 2] 1);
    [reflexivity | reflexivity | simpl; lia].
Defined.

Lemma X12_first_unreadable_title_witness :
  fst (body sample_format
         (initial (documents ([module_record "A"] ++ empty_record
                              :: [module_record "C"])
                             [mindmap_record 3])))
  = Raise (KeyError "title") /\
  stdout (run sample_format sample_exn_text
            (documents ([module_record "A"] ++ empty_record
                        :: [module_record "C"])
                       [mindmap_record 3])) =
    [modules_line (Z.of_nat (List.length ([module_record "A"] ++ empty_record
                                          :: [module_record "C"])));
     mindmaps_line (Z.of_nat (List.length [mindmap_record 3]));
     error_line sample_exn_text (KeyError "title")].
Proof.
  apply (X12_first_unreadable_title sample_format sample_exn_text
           (documents ([module_record "A"] ++ empty_record
                       :: [module_record "C"])
                      [mindmap_record 3])
           [module_record "A"] empty_record [module_record "C"]
           [mindmap_record 3] (KeyError "title"));
    [reflexivity | reflexivity | reflexivity | reflexivity | reflexivity |].
  intros mm [<-|[]]. discriminate.
Defined.



Lemma C10_dangling_reference_ignored_witness :
  fst (bind load_inputs (fun _ => build_reference_set)
         (initial (documents modules_abc
                     ([mindmap_record 1] ++ mindmap_record 7 :: []))))
    = Ok tt /\
  fst (body sample_format
         (initial (documents modules_abc
                     ([mindmap_record 1] ++ mindmap_record 7 :: [])))) =
  fst (body sample_format
         (initial (documents modules_abc ([mindmap_record 1] ++ [])))) /\
  exists first rest,
    stdout (run sample_format sample_exn_text
              (documents modules_abc ([mindmap_record 1] ++ []))) =
      first :: mindmaps_line (Z.of_nat (List.length ([mindmap_record 1] ++ [])))
            :: rest /\
    stdout (run sample_format sample_exn_text
              (documents modules_abc ([mindmap_record 1] ++ mindmap_record 7 :: []))) =
      first :: mindmaps_line (Z.of_nat (List.length ([mindmap_record 1] ++ [])) + 1)
            :: rest.
Proof.
  apply (C10_dangling_reference_ignored sample_format sample_exn_text
           modules_abc [mindmap_record 1] [] (mindmap_record 7) 7);
    [reflexivity | reflexivity | reflexivity | right; simpl; lia].
Defined.






(* ================================================================= *)
(** * Where the specification says more than the script does *)



(** C5 as stated fails: a record with a null [module_id] is counted in
    the count of mindmaps, so the output with it differs from the output
    without it. *)
Lemma C5_null_record_is_counted :
  forallb is_module [module_record "A"; module_record "B"] = true
  /\ forallb is_mindmap [null_mindmap] = true
  /\ no_reference null_mindmap = true
  /\ stdout (run sample_format sample_exn_text
               (documents [module_record "A"; module_record "B"] [null_mindmap]))
     <>
     stdout (run sample_format sample_exn_text
               (documents [module_record "A"; module_record "B"]
                  (filter (fun mm => negb (no_reference mm)) [null_mindmap]))).
Proof.
  repeat (split; [reflexivity|]).
  intros H. vm_compute in H. discriminate H.
Qed.
